(** * weather-metrics: metrics taxonomy, registries and the time-series filter

    A shallow embedding of [src/metrics.py] and [src/dataframes.py].

    Python values are modelled as follows.
    - [str] is a Rocq [string] of ASCII characters; [str.upper], [str.split]
      (without argument), [str.strip] and [str.join] are written out below on
      that alphabet (a character above 127 has no case and is no
      whitespace here).
    - a [dict] is an association list in insertion order (the order is
      observable through [list(d)], [d.keys()] and [', '.join(d.keys())]).
    - an exception is a value of [exn]; a call that may raise returns a
      [result].
    - the class attribute [MetricsRegistry._registries_prefixes] is threaded
      explicitly: a constructor call takes the current dictionary and returns
      the next one. *)

From Stdlib Require Import List String Ascii Bool Arith Lia ZArith.
From Stdlib Require Import Permutation.
From Stdlib Require Import Floats.SpecFloat.
Import ListNotations.
Open Scope list_scope.
Open Scope string_scope.

(* ================================================================= *)
(** ** Python strings *)

Module PyStr.

(** [str.isspace] on an ASCII character: TAB, LF, VT, FF, CR, the four
    separators FS, GS, RS, US and the space. *)
Definition isspace (c : ascii) : bool :=
  let n := nat_of_ascii c in
  (Nat.leb 9 n && Nat.leb n 13) || (Nat.leb 28 n && Nat.leb n 32).

Definition islower (c : ascii) : bool :=
  let n := nat_of_ascii c in Nat.leb 97 n && Nat.leb n 122.

Definition upper_char (c : ascii) : ascii :=
  if islower c then ascii_of_nat (nat_of_ascii c - 32) else c.

(** [s.upper()] *)
Fixpoint upper (s : string) : string :=
  match s with
  | EmptyString => EmptyString
  | String c rest => String (upper_char c) (upper rest)
  end.

Definition is_empty (s : string) : bool :=
  match s with EmptyString => true | String _ _ => false end.

(** The scanning loop of [s.split()]: [word] is the word being read. *)
Fixpoint split_from (word : string) (s : string) : list string :=
  match s with
  | EmptyString => if is_empty word then [] else [word]
  | String c rest =>
      if isspace c then
        if is_empty word then split_from EmptyString rest
        else word :: split_from EmptyString rest
      else split_from (word ++ String c EmptyString) rest
  end.

(** [s.split()]: the maximal runs of non-whitespace characters. *)
Definition split (s : string) : list string := split_from EmptyString s.

(** [sep.join(words)] *)
Fixpoint join (sep : string) (words : list string) : string :=
  match words with
  | [] => EmptyString
  | [w] => w
  | w :: ws => w ++ sep ++ join sep ws
  end.

(** [s.lstrip()], [s.rstrip()] and [s.strip()] *)
Fixpoint lstrip (s : string) : string :=
  match s with
  | EmptyString => EmptyString
  | String c rest => if isspace c then lstrip rest else s
  end.

Fixpoint rstrip (s : string) : string :=
  match s with
  | EmptyString => EmptyString
  | String c rest =>
      match rstrip rest with
      | EmptyString => if isspace c then EmptyString else String c EmptyString
      | r => String c r
      end
  end.

Definition strip (s : string) : string := rstrip (lstrip s).

(** Every run of whitespace that has a non-whitespace character before it
    and after it becomes one underscore; whitespace at either end stays.
    [inside] tells that a non-whitespace character has been read, [run] is
    the whitespace read since. *)
Fixpoint replace_internal_runs (inside : bool) (run : string) (s : string) : string :=
  match s with
  | EmptyString => run
  | String c rest =>
      if isspace c then replace_internal_runs inside (run ++ String c EmptyString) rest
      else (if is_empty run then EmptyString else if inside then "_" else run)
             ++ String c (replace_internal_runs true EmptyString rest)
  end.

(** [x in xs] for a list of strings. *)
Definition contains (xs : list string) (x : string) : bool :=
  existsb (String.eqb x) xs.

(** [needle in haystack] for strings, as a proposition. *)
Definition occurs_in (needle haystack : string) : Prop :=
  exists before after, haystack = before ++ needle ++ after.

(** Every character of the string passes the test. *)
Fixpoint all_chars (p : ascii -> bool) (s : string) : bool :=
  match s with
  | EmptyString => true
  | String c rest => p c && all_chars p rest
  end.

Definition no_space (c : ascii) : bool := negb (isspace c).

(** [c.upper() == c] *)
Definition fixed_by_upper (c : ascii) : bool := Ascii.eqb (upper_char c) c.

(** [a.upper() == b.upper()]: equality up to case. *)
Definition same_ignoring_case (a b : string) : bool :=
  String.eqb (upper a) (upper b).

End PyStr.

(* ================================================================= *)
(** ** Python dictionaries with string keys *)

Module PyDict.

Definition dict (V : Type) : Type := list (string * V).

Section Ops.
Variable V : Type.

Definition empty : dict V := [].

(** [d.keys()], also [list(d)] *)
Definition keys (d : dict V) : list string := map fst d.

(** [d.items()] *)
Definition items (d : dict V) : list (string * V) := d.

(** [d.values()] *)
Definition values (d : dict V) : list V := map snd d.

(** [d.get(k)] *)
Fixpoint get (d : dict V) (k : string) : option V :=
  match d with
  | [] => None
  | (k', v) :: rest => if String.eqb k k' then Some v else get rest k
  end.

(** [k in d] *)
Definition mem (d : dict V) (k : string) : bool :=
  PyStr.contains (keys d) k.

(** [d[k] = v]: an existing key keeps its position and takes the new
    value, a new key goes to the end. *)
Fixpoint set (d : dict V) (k : string) (v : V) : dict V :=
  match d with
  | [] => [(k, v)]
  | (k', v') :: rest =>
      if String.eqb k k' then (k', v) :: rest else (k', v') :: set rest k v
  end.

(** [d.pop(k)] on a key that is present: the dictionary without it. *)
Fixpoint remove (d : dict V) (k : string) : dict V :=
  match d with
  | [] => []
  | (k', v') :: rest =>
      if String.eqb k k' then rest else (k', v') :: remove rest k
  end.
End Ops.

Arguments keys {V} d.
Arguments items {V} d.
Arguments values {V} d.
Arguments get {V} d k.
Arguments mem {V} d k.
Arguments set {V} d k v.
Arguments remove {V} d k.

End PyDict.

(* ================================================================= *)
(** ** Exceptions *)

Inductive exn : Type :=
| ValueError (msg : string)
| KeyError (key : string)
| TypeError (msg : string)
| ValidationError (field : string)
| UndefinedVariableError (name : string)
| SchemaError (column : string).

Inductive result (A : Type) : Type :=
| Ok (a : A)
| Raise (e : exn).

Arguments Ok {A} a.
Arguments Raise {A} e.

Definition bind {A B : Type} (r : result A) (k : A -> result B) : result B :=
  match r with
  | Ok a => k a
  | Raise e => Raise e
  end.

Notation "x <- r ;; k" := (bind r (fun x => k))
  (at level 61, r at next level, right associativity).

(* ================================================================= *)
(** ** [metrics.py]: [Aggregation] and [Metrics] *)

Inductive Aggregation : Type := LAST | MAX | MEAN | MIN | SUM.

(** [Aggregation] derives from [str]: a member is its value in a
    concatenation. *)
Definition Aggregation_value (a : Aggregation) : string :=
  match a with
  | LAST => "LAST"
  | MAX => "MAX"
  | MEAN => "MEAN"
  | MIN => "MIN"
  | SUM => "SUM"
  end.

(** The values that occur as keyword arguments of [Metrics] and in the
    dictionary [Metrics.dict] returns. *)
Inductive pyval : Type :=
| VStr (s : string)
| VBool (b : bool)
| VAgg (a : Aggregation)
| VNone.

(** A call that unpacks the dictionary [unpacked] and then gives the
    keywords [explicit]: Python refuses a keyword that is given twice before
    the callee runs. *)
Fixpoint call_kwargs (unpacked : PyDict.dict pyval)
    (explicit : list (string * pyval)) : result (PyDict.dict pyval) :=
  match explicit with
  | [] => Ok unpacked
  | (k, v) :: rest =>
      if PyDict.mem unpacked k
      then Raise (TypeError ("got multiple values for keyword argument '" ++ k ++ "'"))
      else call_kwargs (unpacked ++ [(k, v)])%list rest
  end.

Module Metrics.

Record t : Type := mk {
  name : string;
  unit : string;
  is_cumulative : bool;
  aggregation : option Aggregation
}.

(** [full_name] (property) *)
Definition full_name (self : t) : string :=
  match aggregation self with
  | Some a => name self ++ "_" ++ Aggregation_value a
  | None => name self
  end.

(** [table_column] (property) *)
Definition table_column (self : t) : string :=
  if is_cumulative self then "SUM" else "VALUE".

(** [@validator("name") upper] *)
Definition upper (value : string) : string :=
  PyStr.join "_" (PyStr.split (PyStr.upper value)).

(** [Metrics(name=..., unit=..., is_cumulative=..., aggregation=...)] with
    arguments of the declared types: the validator runs on [name], the
    other fields are stored as given. *)
Definition init (name unit : string) (is_cumulative : bool)
    (aggregation : option Aggregation) : t :=
  mk (upper name) unit is_cumulative aggregation.

(** [BaseModel.dict]: every field, in declaration order. *)
Definition super_dict (self : t) : PyDict.dict pyval :=
  [ ("name", VStr (name self));
    ("unit", VStr (unit self));
    ("is_cumulative", VBool (is_cumulative self));
    ("aggregation", match aggregation self with
                    | Some a => VAgg a
                    | None => VNone
                    end) ].

(** [Metrics.dict] *)
Definition dict (self : t) : PyDict.dict pyval :=
  let d := super_dict self in
  match PyDict.get d "aggregation" with
  | Some VNone => PyDict.remove d "aggregation"
  | _ => d
  end.

(** Field parsing of the constructor.  A missing required field and a
    value of another kind than the declared one are reported; pydantic's
    coercions between kinds are outside this model. *)
Definition parse_str (kwargs : PyDict.dict pyval) (field : string) : option string :=
  match PyDict.get kwargs field with
  | Some (VStr s) => Some s
  | _ => None
  end.

Definition parse_bool (kwargs : PyDict.dict pyval) (field : string) : option bool :=
  match PyDict.get kwargs field with
  | Some (VBool b) => Some b
  | _ => None
  end.

Definition parse_aggregation (kwargs : PyDict.dict pyval) (field : string)
    : option (option Aggregation) :=
  match PyDict.get kwargs field with
  | None | Some VNone => Some None
  | Some (VAgg a) => Some (Some a)
  | Some _ => None
  end.

(** The constructor on the keyword arguments [kwargs]. *)
Definition new (kwargs : PyDict.dict pyval) : result t :=
  match parse_str kwargs "name", parse_str kwargs "unit",
        parse_bool kwargs "is_cumulative",
        parse_aggregation kwargs "aggregation" with
  | Some n, Some u, Some c, Some a => Ok (init n u c a)
  | None, _, _, _ => Raise (ValidationError "name")
  | _, None, _, _ => Raise (ValidationError "unit")
  | _, _, None, _ => Raise (ValidationError "is_cumulative")
  | _, _, _, None => Raise (ValidationError "aggregation")
  end.

(** The constructor on [self.dict()] unpacked, with [aggregation=a]: the way
    the module derives [TEMPERATURE_MIN] from [TEMPERATURE]. *)
Definition derive (self : t) (a : Aggregation) : result t :=
  kwargs <- call_kwargs (dict self) [("aggregation", VAgg a)] ;;
  new kwargs.

(** A record that came out of the constructor. *)
Definition constructed (m : t) : Prop :=
  exists n u c a, m = init n u c a.

End Metrics.

(* ================================================================= *)
(** ** [metrics.py]: [MetricsRegistry] *)

(** The functional call [Enum(value=..., names=[...], type=str)] of Python's
    [enum] module (CPython 3.11), on (name, value) pairs of strings.  An
    enumeration is its class name and its members, in definition order.

    [enum] does not make a member of every name.  The rules below are those
    of [_EnumDict.__setitem__] and of [EnumType.__new__]; they are complete for
    names that hold none of the letters a to z, as every name that went
    through [upper()] in the [Metrics] constructor.  (Some names with such
    letters are settings that later
    stages of the class creation read, such as [_order_] or [__slots__]; what
    those stages do with them is not part of this model.) *)
Module Enum.

Record t : Type := mk {
  class_name : string;
  members : list (string * string)
}.

(** [name[i] == '_'], false beyond the end. *)
Definition underscore_at (name : string) (i : nat) : bool :=
  match String.get i name with
  | Some c => Ascii.eqb c "_"
  | None => false
  end.

(** [_is_sunder(name)] *)
Definition _is_sunder (name : string) : bool :=
  let n := String.length name in
  Nat.ltb 2 n
  && underscore_at name 0 && underscore_at name (n - 1)
  && negb (underscore_at name 1) && negb (underscore_at name (n - 2)).

(** [_is_dunder(name)] *)
Definition _is_dunder (name : string) : bool :=
  let n := String.length name in
  Nat.ltb 4 n
  && underscore_at name 0 && underscore_at name 1
  && underscore_at name (n - 2) && underscore_at name (n - 1)
  && negb (underscore_at name 2) && negb (underscore_at name (n - 3)).

(** [s.startswith(pattern)] *)
Fixpoint startswith (s pattern : string) : bool :=
  match pattern, s with
  | EmptyString, _ => true
  | String p pattern', String c s' => Ascii.eqb c p && startswith s' pattern'
  | String _ _, EmptyString => false
  end.

(** [_is_private(cls_name, name)]; its third condition compares a string
    with a list and always holds. *)
Definition _is_private (cls_name name : string) : bool :=
  let pattern := "_" ++ cls_name ++ "__" in
  let n := String.length name in
  Nat.ltb (String.length pattern) n
  && startswith name pattern
  && (negb (underscore_at name (n - 1)) || negb (underscore_at name (n - 2))).

(** The sunder names [enum] gives a meaning. *)
Definition permitted_sunder : list string :=
  [ "_order_"; "_generate_next_value_"; "_numeric_repr_"; "_missing_"; "_ignore_";
    "_iter_member_"; "_iter_member_by_value_"; "_iter_member_by_def_" ].

(** [repr(s)] of a string without quote, backslash or control character. *)
Definition repr (s : string) : string := "'" ++ s ++ "'".

(** [classdict[key] = value] in [_EnumDict]: the member names (with their
    values) after the assignment.  A private, permitted sunder or dunder name
    becomes a plain attribute, another sunder name is refused, a name that is
    a member already is refused, any other name becomes a member. *)
Definition setitem (cls_name : string) (member_names : list (string * string))
    (item : string * string) : result (list (string * string)) :=
  let key := fst item in
  if _is_private cls_name key then Ok member_names
  else if _is_sunder key then
    if PyStr.contains permitted_sunder key then Ok member_names
    else Raise (ValueError ("_sunder_ names, such as " ++ repr key
                              ++ ", are reserved for future Enum use"))
  else if _is_dunder key then Ok member_names
  else match PyDict.get member_names key with
       | Some earlier =>
           Raise (TypeError (repr key ++ " already defined as " ++ repr earlier))
       | None => Ok (member_names ++ [item])%list
       end.

(** The loop of [_create_] over the names. *)
Fixpoint fill (cls_name : string) (member_names names : list (string * string))
    : result (list (string * string)) :=
  match names with
  | [] => Ok member_names
  | item :: rest =>
      member_names' <- setitem cls_name member_names item ;;
      fill cls_name member_names' rest
  end.

(** The member names [EnumType.__new__] refuses. *)
Definition invalid_name (name : string) : bool :=
  String.eqb name "" || String.eqb name "mro".

(** The type name holds a null character. *)
Definition has_null (s : string) : bool :=
  negb (PyStr.all_chars (fun c => negb (Ascii.eqb c Ascii.zero)) s).

(** [Enum(value=class_name, names=names, type=str)], for names that are
    their own values (no two members share a value, so there are no
    aliases). *)
Definition create (class_name : string) (names : list (string * string)) : result t :=
  member_names <- fill class_name [] names ;;
  if existsb (fun item => invalid_name (fst item)) member_names
  then Raise (ValueError
                ("invalid enum member name(s) "
                 ++ PyStr.join ","
                      (map repr (filter invalid_name (map fst member_names)))))
  else if has_null class_name
  then Raise (ValueError "type name must not contain null characters")
  else Ok (mk class_name member_names).

End Enum.

Module MetricsRegistry.

Record t : Type := mk {
  _metrics : PyDict.dict Metrics.t;
  _prefix : string
}.

(** The class attribute [_registries_prefixes]. *)
Definition prefixes : Type := PyDict.dict string.

(** Its value when the class statement has run. *)
Definition no_prefixes : prefixes := PyDict.empty string.

Definition _get_prefixes (cls : prefixes) : list string := PyDict.keys cls.

Definition _add_prefix (cls : prefixes) (prefix : string) : prefixes :=
  PyDict.set cls prefix prefix.

(** [f"{prefix}"] for an [Optional[str]] *)
Definition format (prefix : option string) : string :=
  match prefix with
  | Some p => p
  | None => "None"
  end.

(** [{metrics.full_name: metrics for metrics in metrics}]: one insertion per
    element, in order. *)
Definition insert (d : PyDict.dict Metrics.t) (m : Metrics.t) : PyDict.dict Metrics.t :=
  PyDict.set d (Metrics.full_name m) m.

Definition by_full_name (metrics : list Metrics.t) : PyDict.dict Metrics.t :=
  fold_left insert metrics (PyDict.empty Metrics.t).

(** Every entry is filed under the full name of its record. *)
Definition keyed (d : PyDict.dict Metrics.t) : Prop :=
  forall k m, In (k, m) d -> k = Metrics.full_name m.

Definition collision_message (prefix : option string) (cls : prefixes) : string :=
  "Prefix " ++ format prefix
    ++ " is already used. Please use a prefix different from "
    ++ PyStr.join ", " (PyDict.keys cls).

(** [MetricsRegistry(metrics, prefix)]: the result and the class
    attribute after the call. *)
Definition init (metrics : list Metrics.t) (prefix : option string)
    (cls : prefixes) : result t * prefixes :=
  let _metrics := by_full_name metrics in
  let _prefix := match prefix with Some p => format prefix | None => "" end in
  if PyStr.contains (_get_prefixes cls) _prefix
  then (Raise (ValueError (collision_message prefix cls)), cls)
  else (Ok (mk _metrics _prefix), _add_prefix cls _prefix).

Definition generate_registry_by_filtering (self : t) (metrics : list string)
    (prefix : string) (cls : prefixes) : result t * prefixes :=
  let _metrics_included := map PyStr.upper metrics in
  let _filtered_metrics :=
    map snd (filter (fun item => PyStr.contains _metrics_included (fst item))
                    (PyDict.items (_metrics self))) in
  init _filtered_metrics (Some prefix) cls.

Definition list_all_metrics_names (self : t) : list string :=
  PyDict.keys (_metrics self).

Definition get_metrics_by_full_name (self : t) (full_name : string)
    : result Metrics.t :=
  match PyDict.get (_metrics self) (PyStr.upper full_name) with
  | Some m => Ok m
  | None => Raise (KeyError (PyStr.upper full_name))
  end.

(** [[(name, name) for name in self._metrics.keys()]] *)
Definition enum_names (self : t) : list (string * string) :=
  map (fun name => (name, name)) (PyDict.keys (_metrics self)).

Definition get_enum_from_metrics (self : t) : result Enum.t :=
  Enum.create (_prefix self ++ "Metrics") (enum_names self).

End MetricsRegistry.

(** *** Module-level statements of [metrics.py] *)

Definition TEMPERATURE : Metrics.t := Metrics.init "temperature" "C" false None.
Definition TEMPERATURE_MIN : result Metrics.t := Metrics.derive TEMPERATURE MIN.
Definition TEMPERATURE_MAX : result Metrics.t := Metrics.derive TEMPERATURE MAX.
Definition TEMPERATURE_MEAN : result Metrics.t := Metrics.derive TEMPERATURE MEAN.
Definition TEMPERATURE_LAST : result Metrics.t := Metrics.derive TEMPERATURE LAST.

Definition RAIN_FALL : Metrics.t := Metrics.init "rain fall" "C" true None.
Definition WIND_SPEED_2M : Metrics.t :=
  Metrics.init "wind speed at 2m" "km/h" false None.

(** The two registries the module builds, in order, starting from the empty
    class attribute. *)
Definition MAIN_METRICS_REGISTRY_call :=
  MetricsRegistry.init [TEMPERATURE; RAIN_FALL; WIND_SPEED_2M] None
                       MetricsRegistry.no_prefixes.

Definition METRICS_AND_AGGREGATION_REGISTRY_call
    (cls : MetricsRegistry.prefixes) : result MetricsRegistry.t * MetricsRegistry.prefixes :=
  match TEMPERATURE_MIN, TEMPERATURE_MAX, TEMPERATURE_MEAN, TEMPERATURE_LAST with
  | Ok tmin, Ok tmax, Ok tmean, Ok tlast =>
      MetricsRegistry.init [tmin; tmax; tmean; tlast] (Some "Aggregated") cls
  | Raise e, _, _, _ | _, Raise e, _, _ | _, _, Raise e, _ | _, _, _, Raise e =>
      (Raise e, cls)
  end.

(** The registry bound to [MAIN_METRICS_REGISTRY]: the value of the first
    call above. *)
Definition MAIN_METRICS_REGISTRY : MetricsRegistry.t :=
  MetricsRegistry.mk
    (MetricsRegistry.by_full_name [TEMPERATURE; RAIN_FALL; WIND_SPEED_2M]) "".

(* ================================================================= *)
(** ** pandas frames, as far as [dataframes.py] uses them *)

Module Pandas.

(** One entry of a column, seen as a Python object. *)
Inductive scalar : Type :=
| SStr (s : string)
| SFloat (x : spec_float)
| SDatetime (ns : Z)
| SNaT
| SInt (n : Z)
| SBool (b : bool)
| SNone.

(** A column is a typed array, or an array of arbitrary objects. *)
Inductive Series : Type :=
| ObjectSeries (data : list scalar)
| Float64Series (data : list spec_float)
| Datetime64Series (data : list (option Z))
| Int64Series (data : list Z)
| BoolSeries (data : list bool).

Definition of_datetime (x : option Z) : scalar :=
  match x with
  | Some ns => SDatetime ns
  | None => SNaT
  end.

(** The entries of a column. *)
Definition values (s : Series) : list scalar :=
  match s with
  | ObjectSeries data => data
  | Float64Series data => map SFloat data
  | Datetime64Series data => map of_datetime data
  | Int64Series data => map SInt data
  | BoolSeries data => map SBool data
  end.

(** Columns by name, in column order; the names are distinct. *)
Definition DataFrame : Type := PyDict.dict Series.

Definition columns (df : DataFrame) : list string := PyDict.keys df.

(** [df[name]] *)
Definition getitem (df : DataFrame) (name : string) : result Series :=
  match PyDict.get df name with
  | Some s => Ok s
  | None => Raise (KeyError name)
  end.

(** [s.isin(allowed)] for a list of strings. *)
Definition isin_scalar (allowed : list string) (x : scalar) : bool :=
  match x with
  | SStr s => PyStr.contains allowed s
  | _ => false
  end.

Definition isin (s : Series) (allowed : list string) : Series :=
  BoolSeries (map (isin_scalar allowed) (values s)).

(** [df.assign(name=s)] *)
Definition assign (df : DataFrame) (name : string) (s : Series) : DataFrame :=
  PyDict.set df name s.

(** Boolean indexing: the entries at the positions where the mask holds. *)
Fixpoint select {A : Type} (mask : list bool) (xs : list A) : list A :=
  match mask, xs with
  | b :: mask', x :: xs' =>
      if b then x :: select mask' xs' else select mask' xs'
  | _, _ => []
  end.

(** The number of positions a mask keeps. *)
Definition kept (mask : list bool) : nat := List.length (filter (fun b => b) mask).

Definition select_series (mask : list bool) (s : Series) : Series :=
  match s with
  | ObjectSeries data => ObjectSeries (select mask data)
  | Float64Series data => Float64Series (select mask data)
  | Datetime64Series data => Datetime64Series (select mask data)
  | Int64Series data => Int64Series (select mask data)
  | BoolSeries data => BoolSeries (select mask data)
  end.

Definition select_rows (mask : list bool) (df : DataFrame) : DataFrame :=
  map (fun col => (fst col, select_series mask (snd col))) df.

(** [df.query(name)] where the expression is one column name: the rows at
    which that boolean column holds.  An unknown name is pandas'
    [UndefinedVariableError]; a column that is not boolean is no row mask
    and is reported as a [KeyError]. *)
Definition query (df : DataFrame) (name : string) : result DataFrame :=
  match PyDict.get df name with
  | Some (BoolSeries mask) => Ok (select_rows mask df)
  | Some _ => Raise (KeyError name)
  | None => Raise (UndefinedVariableError name)
  end.

(** [df.drop(columns=name)] *)
Definition drop (df : DataFrame) (name : string) : result DataFrame :=
  if PyDict.mem df name then Ok (PyDict.remove df name)
  else Raise (KeyError name).

(** *** Rows *)

Definition row : Type := PyDict.dict scalar.

Definition length (s : Series) : nat := List.length (values s).

Definition nrows (df : DataFrame) : nat :=
  match df with
  | [] => 0
  | (_, s) :: _ => length s
  end.

(** All columns have [n] entries. *)
Definition aligned (n : nat) (df : DataFrame) : bool :=
  forallb (fun col => Nat.eqb (length (snd col)) n) df.

Fixpoint add_column (name : string) (xs : list scalar) (rs : list row) : list row :=
  match xs, rs with
  | x :: xs', r :: rs' => ((name, x) :: r) :: add_column name xs' rs'
  | _, _ => []
  end.

Fixpoint rows_of (n : nat) (df : DataFrame) : list row :=
  match df with
  | [] => repeat [] n
  | (name, s) :: rest => add_column name (values s) (rows_of n rest)
  end.

(** The rows of a frame, first to last. *)
Definition rows (df : DataFrame) : list row := rows_of (nrows df) df.

(** The entry of a row in [column] is one of the strings [allowed]. *)
Definition row_isin (column : string) (allowed : list string) (r : row) : bool :=
  match PyDict.get r column with
  | Some x => isin_scalar allowed x
  | None => false
  end.

(** [x] is an entry of the column [column] of the frame. *)
Definition entry_of (df : DataFrame) (column : string) (x : scalar) : Prop :=
  exists s, PyDict.get df column = Some s /\ In x (values s).

Definition is_datetime (x : scalar) : bool :=
  match x with SDatetime _ => true | _ => false end.

Definition is_float (x : scalar) : bool :=
  match x with SFloat _ => true | _ => false end.

End Pandas.

(** ** pandera schemas, as far as [dataframes.py] uses them *)

Module Pandera.
Import Pandas.

Inductive dtype : Type := Str | Datetime | Float.

(** A column of a [SchemaModel]: [Series[dtype]], with [Field(isin=...)]
    when given.  The other options keep their defaults: not nullable, no
    coercion. *)
Record Column : Type := mkColumn {
  column_name : string;
  column_dtype : dtype;
  column_isin : option (list string)
}.

Definition Schema : Type := list Column.

Definition is_str (x : scalar) : bool :=
  match x with SStr _ => true | _ => false end.

Definition is_nan (x : spec_float) : bool :=
  match x with S754_nan => true | _ => false end.

Definition is_nat (x : option Z) : bool :=
  match x with None => true | Some _ => false end.

(** The dtype check together with the check that no entry is null. *)
Definition check_dtype (d : dtype) (s : Series) : bool :=
  match d, s with
  | Str, ObjectSeries data => forallb is_str data
  | Datetime, Datetime64Series data => forallb (fun x => negb (is_nat x)) data
  | Float, Float64Series data => forallb (fun x => negb (is_nan x)) data
  | _, _ => false
  end.

Definition check_isin (allowed : option (list string)) (s : Series) : bool :=
  match allowed with
  | Some xs => forallb (isin_scalar xs) (values s)
  | None => true
  end.

(** [schema.validate(df)]: the frame itself when every declared column is
    present and passes its checks (columns that are not declared are
    allowed), [SchemaError] otherwise. *)
Fixpoint check_columns (schema : Schema) (df : DataFrame) : result unit :=
  match schema with
  | [] => Ok tt
  | c :: rest =>
      match PyDict.get df (column_name c) with
      | None => Raise (SchemaError (column_name c))
      | Some s =>
          if check_dtype (column_dtype c) s && check_isin (column_isin c) s
          then check_columns rest df
          else Raise (SchemaError (column_name c))
      end
  end.

Definition validate (schema : Schema) (df : DataFrame) : result DataFrame :=
  _ <- check_columns schema df ;; Ok df.

(** [@check_input(schema)]: the first argument is validated, then the
    function runs on it. *)
Definition check_input {A B : Type} (schema : Schema)
    (f : DataFrame -> A -> result B) (data : DataFrame) (a : A) : result B :=
  checked <- validate schema data ;; f checked a.

End Pandera.

(* ================================================================= *)
(** ** [dataframes.py] *)

Definition Timeseries : Pandera.Schema :=
  [ Pandera.mkColumn "metrics" Pandera.Str
      (Some (MetricsRegistry.list_all_metrics_names MAIN_METRICS_REGISTRY));
    Pandera.mkColumn "timestamp" Pandera.Datetime None;
    Pandera.mkColumn "value" Pandera.Float None ].

(** The names the schema allows in the column [metrics]. *)
Definition known_names : list string :=
  MetricsRegistry.list_all_metrics_names MAIN_METRICS_REGISTRY.

(** What the schema asks of a frame. *)
Definition conforms (data : Pandas.DataFrame) : Prop :=
  exists sm st sv,
    PyDict.get data "metrics" = Some sm
    /\ Pandera.check_dtype Pandera.Str sm = true
    /\ forallb (Pandas.isin_scalar known_names) (Pandas.values sm) = true
    /\ PyDict.get data "timestamp" = Some st
    /\ Pandera.check_dtype Pandera.Datetime st = true
    /\ PyDict.get data "value" = Some sv
    /\ Pandera.check_dtype Pandera.Float sv = true.

(** The body of [filter_metrics], below the decorator. *)
Definition filter_metrics_body (data : Pandas.DataFrame) (metrics : list string)
    : result Pandas.DataFrame :=
  col <- Pandas.getitem data "metrics" ;;
  let assigned := Pandas.assign data "is_in_metrics" (Pandas.isin col metrics) in
  queried <- Pandas.query assigned "is_in_metrics" ;;
  Pandas.drop queried "is_in_metrics".

Definition filter_metrics : Pandas.DataFrame -> list string -> result Pandas.DataFrame :=
  Pandera.check_input Timeseries filter_metrics_body.

(** The float [1.0]. *)
Definition one : spec_float := S754_finite false 4503599627370496 (-52).

(** The two sample frames; [t1] and [t2] stand for the two readings of the
    clock. *)
Definition time_series (t1 t2 : Z) : Pandas.DataFrame :=
  [ ("metrics", Pandas.ObjectSeries [Pandas.SStr "TEMPERATURE"; Pandas.SStr "RAIN_FALL"]);
    ("timestamp", Pandas.Datetime64Series [Some t1; Some t2]);
    ("value", Pandas.Float64Series [one; one]) ].

Definition wrong_time_series (t1 t2 : Z) : Pandas.DataFrame :=
  [ ("metrics", Pandas.ObjectSeries [Pandas.SStr "TEMPERATURE"; Pandas.SStr "RAINFALL"]);
    ("timestamp", Pandas.Datetime64Series [Some t1; Some t2]);
    ("value", Pandas.Float64Series [one; one]) ].

(* ================================================================= *)
(** ** The name normalisation as the specification words it *)

(** "the name uppercased with every internal run of whitespace replaced by
    a single underscore" *)
Definition specified_name (name : string) : string :=
  PyStr.replace_internal_runs false EmptyString (PyStr.upper name).

(* ================================================================= *)
(** ** A process: registry constructions one after the other *)

Inductive construction : Type :=
| Direct (metrics : list Metrics.t) (prefix : option string)
| ByFiltering (self : MetricsRegistry.t) (metrics : list string) (prefix : string).

Definition construct (c : construction) (cls : MetricsRegistry.prefixes)
    : result MetricsRegistry.t * MetricsRegistry.prefixes :=
  match c with
  | Direct metrics prefix => MetricsRegistry.init metrics prefix cls
  | ByFiltering self metrics prefix =>
      MetricsRegistry.generate_registry_by_filtering self metrics prefix cls
  end.

(** The [prefix] argument as it was passed, and the prefix the registry
    would carry. *)
Definition prefix_argument (c : construction) : option string :=
  match c with
  | Direct _ prefix => prefix
  | ByFiltering _ _ prefix => Some prefix
  end.

Definition prefix_of (c : construction) : string :=
  match prefix_argument c with
  | Some p => p
  | None => ""
  end.

(** The metrics a construction hands to the constructor. *)
Definition metrics_argument (c : construction) : list Metrics.t :=
  match c with
  | Direct metrics _ => metrics
  | ByFiltering self metrics _ =>
      map snd (filter (fun item => PyStr.contains (map PyStr.upper metrics) (fst item))
                      (PyDict.items (MetricsRegistry._metrics self)))
  end.

(** Replace the prefix of a construction. *)
Definition with_prefix (c : construction) (p : string) : construction :=
  match c with
  | Direct metrics _ => Direct metrics (Some p)
  | ByFiltering self metrics _ => ByFiltering self metrics p
  end.

(** The class attribute after the constructions [cs], run in order. *)
Fixpoint run (cs : list construction) (cls : MetricsRegistry.prefixes)
    : MetricsRegistry.prefixes :=
  match cs with
  | [] => cls
  | c :: rest => run rest (snd (construct c cls))
  end.

(* ================================================================= *)
(** ** [main.py] *)

(** A list comprehension whose element expression may raise: the elements
    are computed first to last and the first exception ends it. *)
Fixpoint traverse {A B : Type} (f : A -> result B) (xs : list A) : result (list B) :=
  match xs with
  | [] => Ok []
  | x :: rest =>
      y <- f x ;;
      ys <- traverse f rest ;;
      Ok (y :: ys)
  end.

(** The registry bound to [METRICS_AND_AGGREGATION_REGISTRY] in
    [metrics.py]. *)
Definition METRICS_AND_AGGREGATION_REGISTRY : MetricsRegistry.t :=
  MetricsRegistry.mk
    (MetricsRegistry.by_full_name
       [ Metrics.init "temperature" "C" false (Some MIN);
         Metrics.init "temperature" "C" false (Some MAX);
         Metrics.init "temperature" "C" false (Some MEAN);
         Metrics.init "temperature" "C" false (Some LAST) ])
    "Aggregated".

(** The module-level call that builds [PARTIAL_METRICS_REGISTRY], and the
    registry it binds. *)
Definition PARTIAL_METRICS_REGISTRY_call (cls : MetricsRegistry.prefixes)
    : result MetricsRegistry.t * MetricsRegistry.prefixes :=
  MetricsRegistry.generate_registry_by_filtering METRICS_AND_AGGREGATION_REGISTRY
    ["TEMPERATURE_MIN"; "TEMPERATURE_MAX"] "Partial" cls.

Definition PARTIAL_METRICS_REGISTRY : MetricsRegistry.t :=
  MetricsRegistry.mk
    (MetricsRegistry.by_full_name
       [ Metrics.init "temperature" "C" false (Some MIN);
         Metrics.init "temperature" "C" false (Some MAX) ])
    "Partial".

(** A member of a generated enumeration is a (name, value) pair;
    [metric.name] is its first component. *)
Definition member_name (metric : string * string) : string := fst metric.

(** [get_from_all]: the handler of "/all" on the members it is given; the
    value is what the handler returns under "response", the filtered frame
    as records, one dictionary per row. *)
Definition get_from_all (t1 t2 : Z) (metrics : list (string * string))
    : result (list Pandas.row) :=
  _metrics <- traverse (fun metric =>
                MetricsRegistry.get_metrics_by_full_name MAIN_METRICS_REGISTRY
                  (member_name metric)) metrics ;;
  filtered <- filter_metrics (time_series t1 t2) (map member_name metrics) ;;
  Ok (Pandas.rows filtered).

(** [get_from_partial]: the handler of "/partial"; the value is what the
    handler returns under "response". *)
Definition get_from_partial (metrics : list (string * string))
    : result (list Metrics.t) :=
  traverse (fun metric =>
    MetricsRegistry.get_metrics_by_full_name PARTIAL_METRICS_REGISTRY
      (member_name metric)) metrics.

(** ** Auxiliary notions for the statements below *)

(** The elements of a list of strings without repetition, each at its
    first position. *)
Fixpoint first_occurrences (seen xs : list string) : list string :=
  match xs with
  | [] => []
  | x :: rest =>
      if PyStr.contains seen x then first_occurrences seen rest
      else x :: first_occurrences (seen ++ [x])%list rest
  end.

(** The last element of a list that passes a test. *)
Fixpoint find_last {A : Type} (p : A -> bool) (xs : list A) : option A :=
  match xs with
  | [] => None
  | x :: rest =>
      match find_last p rest with
      | Some y => Some y
      | None => if p x then Some x else None
      end
  end.

(** A mapping as the constructor builds it: no name twice, every entry
    under the full name of its record. *)
Definition well_keyed (d : PyDict.dict Metrics.t) : Prop :=
  NoDup (PyDict.keys d) /\ MetricsRegistry.keyed d.

(** The test [generate_registry_by_filtering] applies to an entry:
    [name in _metrics_included]. *)
Definition requested (metrics : list string) (item : string * Metrics.t) : bool :=
  PyStr.contains (map PyStr.upper metrics) (fst item).

(* ================================================================= *)
(** * Facts *)

(** ** Strings *)

Module PyStrFacts.
Import PyStr.

Lemma append_empty_r (s : string) : s ++ "" = s.
Proof. induction s as [|c s IH]; simpl; [reflexivity | now rewrite IH]. Qed.

Lemma append_assoc (a b c : string) : (a ++ b) ++ c = a ++ (b ++ c).
Proof. induction a as [|x a IH]; simpl; [reflexivity | now rewrite IH]. Qed.

Lemma append_length (a b : string) :
  String.length (a ++ b) = String.length a + String.length b.
Proof. induction a as [|x a IH]; simpl; [reflexivity | now rewrite IH]. Qed.

Lemma append_inj_l (a b c : string) : a ++ c = b ++ c -> a = b.
Proof.
  revert b; induction a as [|x a IH]; intros [|y b] H; simpl in H.
  - reflexivity.
  - apply (f_equal String.length) in H. simpl in H.
    rewrite append_length in H. lia.
  - apply (f_equal String.length) in H. simpl in H.
    rewrite append_length in H. lia.
  - injection H as -> H. f_equal. now apply IH.
Qed.

Lemma append_inj_r (a b c : string) : a ++ b = a ++ c -> b = c.
Proof.
  induction a as [|x a IH]; simpl; intros H; [exact H|].
  injection H as H. now apply IH.
Qed.

Lemma is_empty_snoc (w : string) (c : ascii) : is_empty (w ++ String c "") = false.
Proof. destruct w; reflexivity. Qed.

(** *** Characters *)

Lemma upper_char_idem (c : ascii) : upper_char (upper_char c) = upper_char c.
Proof. destruct c as [[] [] [] [] [] [] [] []]; reflexivity. Qed.

Lemma isspace_upper_char (c : ascii) : isspace (upper_char c) = isspace c.
Proof. destruct c as [[] [] [] [] [] [] [] []]; reflexivity. Qed.

Lemma upper_idem (s : string) : upper (upper s) = upper s.
Proof.
  induction s as [|c s IH]; simpl; [reflexivity|].
  now rewrite upper_char_idem, IH.
Qed.

Lemma upper_append (a b : string) : upper (a ++ b) = upper a ++ upper b.
Proof. induction a as [|x a IH]; simpl; [reflexivity | now rewrite IH]. Qed.

(** *** Strings whose characters all satisfy a test *)

Lemma all_chars_append p (a b : string) :
  all_chars p (a ++ b) = all_chars p a && all_chars p b.
Proof.
  induction a as [|x a IH]; simpl; [reflexivity|].
  now rewrite IH, andb_assoc.
Qed.

Lemma upper_fixed (s : string) : all_chars fixed_by_upper s = true -> upper s = s.
Proof.
  induction s as [|c s IH]; simpl; [reflexivity|].
  intros [Hc Hs]%andb_prop. apply Ascii.eqb_eq in Hc.
  now rewrite Hc, IH.
Qed.

Lemma upper_is_fixed (s : string) : all_chars fixed_by_upper (upper s) = true.
Proof.
  induction s as [|c s IH]; simpl; [reflexivity|].
  rewrite IH, andb_true_r. unfold fixed_by_upper.
  rewrite upper_char_idem. apply Ascii.eqb_refl.
Qed.

(** *** [split] and [join] *)

(** The words of [split_from] carry only characters of [word] and of the
    non-whitespace part of [s]. *)
Lemma split_from_chars p (s word : string) :
  all_chars p word = true ->
  all_chars (fun c => isspace c || p c) s = true ->
  Forall (fun w => all_chars p w = true) (split_from word s).
Proof.
  revert word; induction s as [|c s IH]; simpl; intros word Hw Hs.
  - destruct (is_empty word); auto.
  - apply andb_prop in Hs as [Hc Hs].
    destruct (isspace c) eqn:Ec.
    + destruct (is_empty word); [|constructor; [exact Hw|]]; now apply IH.
    + apply IH; [|exact Hs]. rewrite all_chars_append, Hw. simpl.
      simpl in Hc. now rewrite Hc.
Qed.

Lemma split_from_no_space (s word : string) :
  all_chars no_space word = true ->
  Forall (fun w => all_chars no_space w = true) (split_from word s).
Proof.
  revert word; induction s as [|c s IH]; simpl; intros word Hw.
  - destruct (is_empty word); auto.
  - destruct (isspace c) eqn:Ec.
    + destruct (is_empty word); [|constructor; [exact Hw|]]; now apply IH.
    + apply IH. rewrite all_chars_append, Hw. simpl.
      unfold no_space. now rewrite Ec.
Qed.

Lemma join_chars p (sep : string) (ws : list string) :
  all_chars p sep = true ->
  Forall (fun w => all_chars p w = true) ws ->
  all_chars p (join sep ws) = true.
Proof.
  intros Hsep; induction 1 as [|w ws Hw Hws IH]; [reflexivity|].
  destruct ws as [|w' ws]; [exact Hw|].
  change (all_chars p (w ++ sep ++ join sep (w' :: ws)) = true).
  now rewrite !all_chars_append, Hw, Hsep, IH.
Qed.

(** A word without whitespace splits into itself. *)
Lemma split_from_word (s word : string) :
  all_chars no_space s = true ->
  split_from word s = if is_empty (word ++ s) then [] else [word ++ s].
Proof.
  revert word; induction s as [|c s IH]; simpl; intros word Hs.
  - now rewrite append_empty_r.
  - apply andb_prop in Hs as [Hc Hs]. unfold no_space in Hc.
    destruct (isspace c); [discriminate|].
    rewrite IH by exact Hs. now rewrite append_assoc.
Qed.

Lemma join_split_word (sep s : string) :
  all_chars no_space s = true -> join sep (split s) = s.
Proof.
  intros Hs. unfold split. rewrite split_from_word by exact Hs.
  simpl. destruct s; reflexivity.
Qed.

Lemma all_chars_weaken (p q : ascii -> bool) (s : string) :
  (forall c, p c = true -> q c = true) ->
  all_chars p s = true -> all_chars q s = true.
Proof.
  intros Hpq; induction s as [|c s IH]; simpl; [reflexivity|].
  intros [Hc Hs]%andb_prop. now rewrite (Hpq c Hc), IH.
Qed.

(** *** [split] against [strip] and the runs of whitespace *)

Lemma rstrip_empty_all_space (s : string) :
  rstrip s = "" -> split_from "" s = [] /\ forall w, is_empty w = false -> split_from w s = [w].
Proof.
  induction s as [|c s IH]; simpl; intros H.
  - split; [reflexivity|]. intros w ->. reflexivity.
  - destruct (rstrip s) eqn:Er; [|discriminate].
    destruct (isspace c) eqn:Ec; [|discriminate].
    destruct (IH eq_refl) as [IH1 IH2]. split; [exact IH1|].
    intros w Hw. now rewrite Hw, IH1.
Qed.

Lemma rstrip_nonempty_split (s : string) :
  rstrip s <> "" -> split_from "" s <> [].
Proof.
  assert (G : forall s w, is_empty w = false -> split_from w s <> []).
  { clear s. induction s as [|c s IH]; simpl; intros w Hw.
    - now rewrite Hw.
    - destruct (isspace c).
      + now rewrite Hw.
      + apply IH, is_empty_snoc. }
  induction s as [|c s IH]; simpl; intros H.
  - now contradiction H.
  - destruct (isspace c) eqn:Ec.
    + apply IH. intros Er. rewrite Er in H. now contradiction H.
    + now apply G.
Qed.

Lemma rstrip_cons (c : ascii) (s : string) :
  rstrip (String c s) <> "" -> rstrip (String c s) = String c (rstrip s).
Proof.
  simpl. destruct (rstrip s) eqn:Er; [|reflexivity].
  destruct (isspace c); [intros H; now contradiction H | reflexivity].
Qed.

(** With a word being read, or with a word finished and whitespace
    pending, joining what [split_from] returns is what the replacement of
    the runs returns on the right-stripped input. *)
Lemma join_split_from_runs (s : string) :
  (forall w, is_empty w = false ->
     join "_" (split_from w s)
     = w ++ replace_internal_runs true "" (rstrip s))
  /\ (forall run, is_empty run = false -> rstrip s <> "" ->
     "_" ++ join "_" (split_from "" s)
     = replace_internal_runs true run (rstrip s)).
Proof.
  induction s as [|c s [IHw IHr]].
  - split.
    + intros w Hw. simpl. rewrite Hw. simpl. now rewrite append_empty_r.
    + intros run _ H. now contradiction H.
  - split.
    + intros w Hw. cbn [split_from]. destruct (isspace c) eqn:Ec.
      * rewrite Hw. destruct (string_dec (rstrip s) "") as [Er|Er].
        -- destruct (rstrip_empty_all_space s Er) as [E1 _].
           rewrite E1. simpl. rewrite Er, Ec. simpl.
           now rewrite append_empty_r.
        -- assert (Hc : rstrip (String c s) = String c (rstrip s)).
           { apply rstrip_cons. simpl. destruct (rstrip s); [now contradiction Er | discriminate]. }
           rewrite Hc. cbn [replace_internal_runs append]. rewrite Ec.
           rewrite <- (IHr (String c "")) by (reflexivity || exact Er).
           pose proof (rstrip_nonempty_split s Er) as Hne.
           destruct (split_from "" s) as [|w' ws]; [now contradiction Hne|].
           reflexivity.
      * rewrite (IHw (w ++ String c "")) by apply is_empty_snoc.
        assert (Hc : rstrip (String c s) = String c (rstrip s)).
        { apply rstrip_cons. simpl. rewrite Ec. destruct (rstrip s); discriminate. }
        rewrite Hc. cbn [replace_internal_runs]. rewrite Ec. simpl.
        now rewrite append_assoc.
    + intros run Hrun Hs. rewrite (rstrip_cons c s Hs).
      cbn [split_from replace_internal_runs]. destruct (isspace c) eqn:Ec.
      * simpl is_empty. cbv iota.
        apply IHr; [apply is_empty_snoc|].
        intros Er. apply Hs. simpl. now rewrite Er, Ec.
      * rewrite Hrun. simpl append at 2.
        rewrite (IHw (String c "")) by reflexivity. reflexivity.
Qed.

(** [split], then [join] with an underscore, is: strip both ends, then
    replace the runs of whitespace that are left. *)
Lemma join_split_strip (s : string) :
  join "_" (split s) = replace_internal_runs false "" (strip s).
Proof.
  unfold split, strip. induction s as [|c s IH]; [reflexivity|].
  cbn [split_from lstrip]. destruct (isspace c) eqn:Ec; [exact IH|].
  destruct (join_split_from_runs s) as [Hw _].
  simpl append. rewrite (Hw (String c "")) by reflexivity.
  assert (Hc : rstrip (String c s) = String c (rstrip s)).
  { apply rstrip_cons. simpl. rewrite Ec. destruct (rstrip s); discriminate. }
  rewrite Hc. cbn [replace_internal_runs]. now rewrite Ec.
Qed.

End PyStrFacts.

(** ** Dictionaries *)

Module PyDictFacts.
Import PyDict.

Lemma contains_In (xs : list string) (x : string) :
  PyStr.contains xs x = true <-> In x xs.
Proof.
  unfold PyStr.contains. rewrite existsb_exists. split.
  - intros [y [Hy E]]. apply String.eqb_eq in E. now subst.
  - intros H. exists x. split; [exact H | apply String.eqb_refl].
Qed.

Lemma contains_false (xs : list string) (x : string) :
  PyStr.contains xs x = false <-> ~ In x xs.
Proof.
  rewrite <- contains_In. destruct (PyStr.contains xs x); split; intros H;
    try reflexivity; try discriminate; try (intros E; discriminate).
  now contradiction H.
Qed.

Section WithValues.
Variable V : Type.
Implicit Types (d : dict V) (k : string) (v : V).

Lemma mem_In d k : mem d k = true <-> In k (keys d).
Proof. apply contains_In. Qed.

Lemma get_None d k : get d k = None <-> ~ In k (keys d).
Proof.
  induction d as [|[k' v'] d IH]; simpl.
  - tauto.
  - destruct (String.eqb_spec k k') as [->|Hne].
    + split; [discriminate | intros H; contradiction H; now left].
    + rewrite IH. split; [intros H [E|E]; [now apply Hne | now apply H] | tauto].
Qed.

Lemma get_In d k v : get d k = Some v -> In (k, v) d.
Proof.
  induction d as [|[k' v'] d IH]; simpl; [discriminate|].
  destruct (String.eqb_spec k k') as [->|Hne].
  - intros [= ->]. now left.
  - intros H. right. now apply IH.
Qed.

Lemma set_fresh d k v : ~ In k (keys d) -> set d k v = (d ++ [(k, v)])%list.
Proof.
  induction d as [|[k' v'] d IH]; simpl; [reflexivity|].
  intros H. destruct (String.eqb_spec k k') as [->|Hne].
  - contradiction H. now left.
  - rewrite IH; [reflexivity | tauto].
Qed.

Lemma keys_set d k v :
  keys (set d k v) = if mem d k then keys d else (keys d ++ [k])%list.
Proof.
  unfold mem. induction d as [|[k' v'] d IH]; simpl; [reflexivity|].
  destruct (String.eqb_spec k k') as [->|Hne]; simpl; [reflexivity|].
  rewrite IH. fold (keys d). now destruct (PyStr.contains (keys d) k).
Qed.

Lemma In_keys_set d k v k' :
  In k' (keys (set d k v)) <-> k' = k \/ In k' (keys d).
Proof.
  rewrite keys_set. destruct (mem d k) eqn:E.
  - apply mem_In in E. split; [tauto | intros [->|H]; assumption].
  - rewrite in_app_iff. simpl. split; [intros [H|[H|[]]]; auto | intros [->|H]; auto].
Qed.

Lemma NoDup_keys_set d k v : NoDup (keys d) -> NoDup (keys (set d k v)).
Proof.
  intros Hnd. rewrite keys_set. destruct (mem d k) eqn:E; [exact Hnd|].
  apply NoDup_app; [exact Hnd | repeat constructor; simpl; tauto |].
  intros x Hx [<-|[]]. apply mem_In in Hx. congruence.
Qed.

Lemma get_set_same d k v : get (set d k v) k = Some v.
Proof.
  induction d as [|[k' v'] d IH]; simpl.
  - now rewrite String.eqb_refl.
  - destruct (String.eqb_spec k k') as [->|Hne]; simpl.
    + now rewrite String.eqb_refl.
    + destruct (String.eqb_spec k k'); [contradiction | exact IH].
Qed.

Lemma get_set_other d k v k' : k' <> k -> get (set d k v) k' = get d k'.
Proof.
  intros Hne. induction d as [|[k0 v0] d IH]; simpl.
  - destruct (String.eqb_spec k' k); [contradiction | reflexivity].
  - destruct (String.eqb_spec k k0) as [->|Hk]; simpl.
    + destruct (String.eqb_spec k' k0); [contradiction | reflexivity].
    + now rewrite IH.
Qed.

Lemma In_set d k v k' v' :
  In (k', v') (set d k v) -> (k' = k /\ v' = v) \/ In (k', v') d.
Proof.
  induction d as [|[k0 v0] d IH]; simpl.
  - intros [[= <- <-]|[]]. now left.
  - destruct (String.eqb_spec k k0) as [->|Hk]; simpl.
    + intros [[= <- <-]|H]; [now left | right; now right].
    + intros [H|H]; [right; now left|].
      destruct (IH H) as [E|E]; [now left | right; now right].
Qed.

Lemma remove_fresh_end d k v :
  ~ In k (keys d) -> remove (d ++ [(k, v)])%list k = d.
Proof.
  induction d as [|[k' v'] d IH]; simpl.
  - now rewrite String.eqb_refl.
  - intros H. destruct (String.eqb_spec k k') as [->|Hne].
    + contradiction H. now left.
    + rewrite IH; [reflexivity | tauto].
Qed.

End WithValues.

End PyDictFacts.

(** ** The prefix namespace *)

Module PrefixFacts.
Import MetricsRegistry.

(** Both ways of constructing end in the constructor. *)
Lemma construct_init (c : construction) (cls : prefixes) :
  construct c cls = init (metrics_argument c) (prefix_argument c) cls.
Proof. destruct c; reflexivity. Qed.

Lemma init_prefix (metrics : list Metrics.t) (prefix : option string) (cls : prefixes) :
  let p := match prefix with Some p => p | None => "" end in
  init metrics prefix cls =
    if PyStr.contains (_get_prefixes cls) p
    then (Raise (ValueError (collision_message prefix cls)), cls)
    else (Ok (mk (by_full_name metrics) p), _add_prefix cls p).
Proof. destruct prefix; reflexivity. Qed.

Lemma construct_cases (c : construction) (cls : prefixes) :
  construct c cls =
    if PyStr.contains (_get_prefixes cls) (prefix_of c)
    then (Raise (ValueError (collision_message (prefix_argument c) cls)), cls)
    else (Ok (mk (by_full_name (metrics_argument c)) (prefix_of c)),
          _add_prefix cls (prefix_of c)).
Proof. rewrite construct_init. apply init_prefix. Qed.

(** After a construction its prefix is claimed, whatever the outcome. *)
Lemma construct_claims (c : construction) (cls : prefixes) (p : string) :
  In p (_get_prefixes (snd (construct c cls)))
  <-> p = prefix_of c \/ In p (_get_prefixes cls).
Proof.
  rewrite construct_cases.
  destruct (PyStr.contains (_get_prefixes cls) (prefix_of c)) eqn:E; simpl.
  - apply PyDictFacts.contains_In in E. split; [tauto | intros [->|H]; assumption].
  - apply PyDictFacts.In_keys_set.
Qed.

Lemma run_claims (cs : list construction) (cls : prefixes) (p : string) :
  In p (_get_prefixes (run cs cls))
  <-> (exists c, In c cs /\ prefix_of c = p) \/ In p (_get_prefixes cls).
Proof.
  revert cls; induction cs as [|c cs IH]; intros cls; simpl.
  - split; [tauto | intros [[c [[] _]]|H]; exact H].
  - rewrite IH, construct_claims. split.
    + intros [[c' [Hc' E]]|[->|H]].
      * left. exists c'. tauto.
      * left. exists c. tauto.
      * now right.
    + intros [[c' [[<-|Hc'] E]]|H].
      * right. left. now symmetry.
      * left. now exists c'.
      * right. now right.
Qed.

Lemma run_from_start (cs : list construction) (p : string) :
  In p (_get_prefixes (run cs no_prefixes))
  <-> exists c, In c cs /\ prefix_of c = p.
Proof.
  rewrite run_claims. split; [intros [H|[]]; exact H | now left].
Qed.

(** *** The message *)

Lemma occurs_in_refl (s : string) : PyStr.occurs_in s s.
Proof. exists "", "". simpl. now rewrite PyStrFacts.append_empty_r. Qed.

Lemma occurs_in_append_l (a s t : string) :
  PyStr.occurs_in s t -> PyStr.occurs_in s (a ++ t).
Proof.
  intros [b [e ->]]. exists (a ++ b), e. now rewrite PyStrFacts.append_assoc.
Qed.

Lemma occurs_in_append_r (a s t : string) :
  PyStr.occurs_in s t -> PyStr.occurs_in s (t ++ a).
Proof.
  intros [b [e ->]]. exists b, (e ++ a).
  now rewrite !PyStrFacts.append_assoc.
Qed.

Lemma occurs_in_join (sep : string) (ws : list string) (w : string) :
  In w ws -> PyStr.occurs_in w (PyStr.join sep ws).
Proof.
  induction ws as [|w0 ws IH]; [intros []|].
  intros [->|H].
  - destruct ws as [|w1 ws]; [apply occurs_in_refl|].
    change (PyStr.occurs_in w (w ++ sep ++ PyStr.join sep (w1 :: ws))).
    apply occurs_in_append_r, occurs_in_refl.
  - destruct ws as [|w1 ws]; [destruct H|].
    change (PyStr.occurs_in w (w0 ++ sep ++ PyStr.join sep (w1 :: ws))).
    now apply occurs_in_append_l, occurs_in_append_l, IH.
Qed.

Lemma message_names (prefix : option string) (cls : prefixes) (p : string) :
  In p (_get_prefixes cls) -> PyStr.occurs_in p (collision_message prefix cls).
Proof.
  intros H. unfold collision_message.
  now apply occurs_in_append_l, occurs_in_append_l, occurs_in_append_l,
    occurs_in_join.
Qed.

End PrefixFacts.

(* ================================================================= *)
(** * Properties of the registry *)

(** C1. In a process that has run any constructions, direct or by
    filtering, a construction whose prefix equals the prefix of an earlier
    one (the default prefix counts as the empty string) raises [ValueError],
    the prefix-uniqueness error, and leaves the namespace as it was.  The
    prefixes in use are exactly those of the constructions run so far, and
    each of them occurs in the message. *)
Theorem prefix_collision_always_fails :
  forall (earlier between : list construction) (c0 c : construction),
    prefix_of c0 = prefix_of c ->
    let history := (earlier ++ c0 :: between)%list in
    let cls := run history MetricsRegistry.no_prefixes in
    let msg := MetricsRegistry.collision_message (prefix_argument c) cls in
    construct c cls = (Raise (ValueError msg), cls)
    /\ msg = "Prefix " ++ MetricsRegistry.format (prefix_argument c)
             ++ " is already used. Please use a prefix different from "
             ++ PyStr.join ", " (PyDict.keys cls)
    /\ (forall p, In p (MetricsRegistry._get_prefixes cls)
                  <-> exists c', In c' history /\ prefix_of c' = p)
    /\ (forall p, In p (MetricsRegistry._get_prefixes cls) -> PyStr.occurs_in p msg).
Proof.
  intros earlier between c0 c E history cls msg.
  assert (Hused : forall p, In p (MetricsRegistry._get_prefixes cls)
                            <-> exists c', In c' history /\ prefix_of c' = p)
    by (intros p; apply PrefixFacts.run_from_start).
  repeat split.
  - rewrite PrefixFacts.construct_cases.
    assert (Hin : In (prefix_of c) (MetricsRegistry._get_prefixes cls)).
    { apply Hused. exists c0. split; [|exact E].
      unfold history. apply in_or_app. right. now left. }
    apply PyDictFacts.contains_In in Hin. now rewrite Hin.
  - apply Hused.
  - apply Hused.
  - intros p Hp. now apply PrefixFacts.message_names.
Qed.

(** The module's own first registry takes the default prefix; a second
    registry without a prefix is refused. *)
Lemma prefix_collision_always_fails_witness :
  construct (Direct [RAIN_FALL] None)
            (run [Direct [TEMPERATURE; RAIN_FALL; WIND_SPEED_2M] None;
                  Direct [] (Some "Aggregated")] MetricsRegistry.no_prefixes)
  = (Raise (ValueError
       "Prefix None is already used. Please use a prefix different from , Aggregated"),
     [("", ""); ("Aggregated", "Aggregated")]).
Proof.
  exact (proj1 (prefix_collision_always_fails []
                  [Direct [] (Some "Aggregated")]
                  (Direct [TEMPERATURE; RAIN_FALL; WIND_SPEED_2M] None)
                  (Direct [RAIN_FALL] None) eq_refl)).
Defined.

(** C10. A construction that raises leaves the class attribute exactly as
    it found it: the error is the prefix collision, the prefix was claimed
    before the call, and every later construction behaves as if the failed
    one had not been attempted; the same construction with a prefix that is
    not in use succeeds. *)
Theorem failed_construction_registers_nothing :
  forall (c : construction) (cls cls' : MetricsRegistry.prefixes) (e : exn),
    construct c cls = (Raise e, cls') ->
    cls' = cls
    /\ e = ValueError (MetricsRegistry.collision_message (prefix_argument c) cls)
    /\ In (prefix_of c) (MetricsRegistry._get_prefixes cls)
    /\ (forall c2, construct c2 cls' = construct c2 cls)
    /\ (forall p, ~ In p (MetricsRegistry._get_prefixes cls) ->
          construct (with_prefix c p) cls'
          = (Ok (MetricsRegistry.mk
                   (MetricsRegistry.by_full_name (metrics_argument c)) p),
             MetricsRegistry._add_prefix cls p)).
Proof.
  intros c cls cls' e H.
  rewrite PrefixFacts.construct_cases in H.
  destruct (PyStr.contains (MetricsRegistry._get_prefixes cls) (prefix_of c)) eqn:Ec;
    [|discriminate].
  injection H as <- <-.
  repeat split.
  - now apply PyDictFacts.contains_In.
  - intros p Hp. rewrite PrefixFacts.construct_cases.
    assert (Ep : prefix_of (with_prefix c p) = p) by (destruct c; reflexivity).
    assert (Em : metrics_argument (with_prefix c p)
                 = metrics_argument c) by (destruct c; reflexivity).
    rewrite Ep, Em. apply PyDictFacts.contains_false in Hp. now rewrite Hp.
Qed.

Lemma failed_construction_registers_nothing_witness :
  construct (Direct [RAIN_FALL] (Some "Rain"))
            [("", ""); ("Aggregated", "Aggregated")]
  = (Ok (MetricsRegistry.mk [("RAIN_FALL", RAIN_FALL)] "Rain"),
     [("", ""); ("Aggregated", "Aggregated"); ("Rain", "Rain")]).
Proof.
  refine (proj2 (proj2 (proj2 (proj2
    (failed_construction_registers_nothing (Direct [RAIN_FALL] None)
       [("", ""); ("Aggregated", "Aggregated")] _ _ eq_refl)))) "Rain" _).
  vm_compute. intros [H|[H|[]]]; discriminate.
Defined.

(** ** Metrics and the mapping of a registry *)

Module MetricsFacts.
Import PyStr PyStrFacts.

Lemma validator_no_space (value : string) :
  all_chars no_space (Metrics.upper value) = true.
Proof.
  unfold Metrics.upper. apply join_chars; [reflexivity|].
  now apply split_from_no_space.
Qed.

Lemma validator_is_upper (value : string) :
  all_chars fixed_by_upper (Metrics.upper value) = true.
Proof.
  unfold Metrics.upper. apply join_chars; [reflexivity|].
  apply split_from_chars; [reflexivity|].
  apply all_chars_weaken with (p := fixed_by_upper); [|apply upper_is_fixed].
  intros c ->. apply orb_true_r.
Qed.

(** Validating a validated name changes nothing. *)
Lemma validator_idem (value : string) :
  Metrics.upper (Metrics.upper value) = Metrics.upper value.
Proof.
  unfold Metrics.upper at 1.
  rewrite (upper_fixed _ (validator_is_upper value)).
  apply join_split_word, validator_no_space.
Qed.

Lemma Aggregation_value_upper (a : Aggregation) :
  PyStr.upper (Aggregation_value a) = Aggregation_value a.
Proof. destruct a; reflexivity. Qed.

Lemma Aggregation_value_inj (a b : Aggregation) :
  Aggregation_value a = Aggregation_value b -> a = b.
Proof. destruct a, b; simpl; intros H; try reflexivity; discriminate. Qed.

(** The full name of a constructed record is in upper case. *)
Lemma full_name_upper (m : Metrics.t) :
  Metrics.constructed m -> PyStr.upper (Metrics.full_name m) = Metrics.full_name m.
Proof.
  intros [n [u [c [a ->]]]]. unfold Metrics.full_name, Metrics.init. simpl.
  pose proof (upper_fixed _ (validator_is_upper n)) as Hn.
  destruct a as [a|]; [|exact Hn].
  rewrite upper_append, Hn. f_equal. simpl.
  now rewrite Aggregation_value_upper.
Qed.

(** Records that differ in the aggregation alone have different full
    names. *)
Lemma full_name_aggregation (n u : string) (c : bool) (a b : option Aggregation) :
  a <> b ->
  Metrics.full_name (Metrics.mk n u c a) <> Metrics.full_name (Metrics.mk n u c b).
Proof.
  intros Hab. unfold Metrics.full_name. simpl.
  destruct a as [a|], b as [b|]; intros E.
  - apply append_inj_r in E. injection E as E.
    apply Aggregation_value_inj in E. now subst.
  - apply (f_equal String.length) in E. rewrite append_length in E.
    simpl in E. lia.
  - apply (f_equal String.length) in E. rewrite append_length in E.
    simpl in E. lia.
  - now apply Hab.
Qed.

End MetricsFacts.

Module RegistryFacts.
Import MetricsRegistry.

Lemma fold_insert_keys (metrics : list Metrics.t) (d : PyDict.dict Metrics.t) (k : string) :
  In k (PyDict.keys (fold_left insert metrics d))
  <-> In k (PyDict.keys d) \/ exists m, In m metrics /\ Metrics.full_name m = k.
Proof.
  revert d; induction metrics as [|m0 metrics IH]; intros d; simpl.
  - split; [tauto | intros [H|[m [[] _]]]; exact H].
  - rewrite IH. unfold insert. rewrite PyDictFacts.In_keys_set. split.
    + intros [[->|H]|[m [Hm E]]].
      * right. exists m0. tauto.
      * now left.
      * right. exists m. tauto.
    + intros [H|[m [[<-|Hm] E]]].
      * left. now right.
      * left. left. now symmetry.
      * right. now exists m.
Qed.

Lemma fold_insert_invariant (metrics : list Metrics.t) (d : PyDict.dict Metrics.t) :
  NoDup (PyDict.keys d) -> keyed d ->
  NoDup (PyDict.keys (fold_left insert metrics d))
  /\ keyed (fold_left insert metrics d)
  /\ (forall k m, In (k, m) (fold_left insert metrics d) -> In (k, m) d \/ In m metrics).
Proof.
  revert d; induction metrics as [|m0 metrics IH]; intros d Hnd Hk; simpl.
  - repeat split; auto.
  - destruct (IH (insert d m0)) as [H1 [H2 H3]].
    + now apply PyDictFacts.NoDup_keys_set.
    + intros k m Hin. apply PyDictFacts.In_set in Hin as [[-> ->]|Hin];
        [reflexivity | now apply Hk].
    + repeat split; [exact H1 | exact H2 |].
      intros k m Hin. destruct (H3 k m Hin) as [H|H]; [|right; now right].
      apply PyDictFacts.In_set in H as [[-> ->]|H]; [right; now left | now left].
Qed.

(** The names of a built mapping are the full names of the metrics given. *)
Lemma by_full_name_keys (metrics : list Metrics.t) (k : string) :
  In k (PyDict.keys (by_full_name metrics))
  <-> exists m, In m metrics /\ Metrics.full_name m = k.
Proof.
  unfold by_full_name.
  rewrite fold_insert_keys. split; [intros [[]|H]; exact H | now right].
Qed.

Lemma by_full_name_invariant (metrics : list Metrics.t) :
  NoDup (PyDict.keys (by_full_name metrics))
  /\ keyed (by_full_name metrics)
  /\ (forall k m, In (k, m) (by_full_name metrics) -> In m metrics).
Proof.
  destruct (fold_insert_invariant metrics (PyDict.empty Metrics.t))
    as [H1 [H2 H3]]; [constructor | intros k m [] |].
  repeat split; [exact H1 | exact H2 |].
  intros k m Hin. destruct (H3 k m Hin) as [[]|H]; exact H.
Qed.

(** Inserting entries that are filed correctly under new, different names
    appends them. *)
Lemma fold_insert_append (l d : PyDict.dict Metrics.t) :
  NoDup (PyDict.keys (d ++ l)%list) -> keyed l ->
  fold_left insert (map snd l) d = (d ++ l)%list.
Proof.
  revert d; induction l as [|[k m] l IH]; intros d Hnd Hk; simpl.
  - now rewrite app_nil_r.
  - assert (Ek : k = Metrics.full_name m) by (apply Hk; now left).
    subst k. unfold insert at 2.
    unfold PyDict.keys in Hnd. rewrite map_app in Hnd. simpl in Hnd.
    rewrite PyDictFacts.set_fresh.
    + rewrite IH.
      * now rewrite <- app_assoc.
      * unfold PyDict.keys. rewrite <- app_assoc, map_app. exact Hnd.
      * intros k' m' Hin. apply Hk. now right.
    + apply NoDup_remove_2 in Hnd. intros Hin. apply Hnd.
      apply in_or_app. now left.
Qed.

Lemma NoDup_keys_filter (V : Type) (f : string * V -> bool) (d : PyDict.dict V) :
  NoDup (PyDict.keys d) -> NoDup (PyDict.keys (filter f d)).
Proof.
  induction d as [|[k v] d IH]; simpl; intros Hnd; [constructor|].
  inversion Hnd as [|? ? Hk Hnd']; subst.
  destruct (f (k, v)); simpl; [|now apply IH].
  constructor; [|now apply IH].
  intros Hin. apply Hk. unfold PyDict.keys in *.
  apply in_map_iff in Hin as [[k' v'] [E Hin]]. simpl in E. subst k'.
  apply filter_In in Hin as [Hin _].
  change (In (fst (k, v')) (map fst d)). now apply in_map.
Qed.

(** Rebuilding a mapping from a selection of its own entries gives the
    selection. *)
Lemma by_full_name_filter (metrics : list Metrics.t)
    (f : string * Metrics.t -> bool) :
  by_full_name (map snd (filter f (by_full_name metrics)))
  = filter f (by_full_name metrics).
Proof.
  destruct (by_full_name_invariant metrics) as [Hnd [Hk _]].
  unfold by_full_name at 1.
 
  rewrite fold_insert_append; [reflexivity | |].
  - now apply NoDup_keys_filter.
  - intros k m Hin. apply filter_In in Hin as [Hin _]. now apply Hk.
Qed.

End RegistryFacts.

(** C5. The lookup upper-cases its argument: two spellings with the same
    upper case, such as "temperature_min" and "TEMPERATURE_MIN", give the
    same answer; the answer is the entry filed under the upper-cased name,
    and it is [KeyError] exactly when the mapping has no such name, which
    for a registry built from [metrics] means that none of them has that
    full name. *)
Theorem get_metrics_by_full_name_ignores_case :
  forall (self : MetricsRegistry.t) (full_name : string),
    let get := MetricsRegistry.get_metrics_by_full_name self in
    let key := PyStr.upper full_name in
    get full_name = get key
    /\ get "temperature_min" = get "TEMPERATURE_MIN"
    /\ (forall other, PyStr.upper other = key -> get other = get full_name)
    /\ (forall m, get full_name = Ok m <-> PyDict.get (MetricsRegistry._metrics self) key = Some m)
    /\ (forall e, get full_name = Raise e -> e = KeyError key)
    /\ (get full_name = Raise (KeyError key)
        <-> ~ In key (MetricsRegistry.list_all_metrics_names self))
    /\ (forall metrics prefix,
          self = MetricsRegistry.mk (MetricsRegistry.by_full_name metrics) prefix ->
          (get full_name = Raise (KeyError key)
           <-> ~ exists m, In m metrics /\ Metrics.full_name m = key)).
Proof.
  intros self full_name get key.
  assert (Hidem : get full_name = get key).
  { unfold get, key, MetricsRegistry.get_metrics_by_full_name.
    now rewrite PyStrFacts.upper_idem. }
  assert (Hraise : get full_name = Raise (KeyError key)
                   <-> ~ In key (MetricsRegistry.list_all_metrics_names self)).
  { unfold MetricsRegistry.list_all_metrics_names.
    rewrite <- PyDictFacts.get_None.
    unfold get, MetricsRegistry.get_metrics_by_full_name. fold key.
    destruct (PyDict.get (MetricsRegistry._metrics self) key);
      split; intros H; try reflexivity; discriminate. }
  assert (Hok : forall m, get full_name = Ok m
                 <-> PyDict.get (MetricsRegistry._metrics self) key = Some m).
  { intros m. unfold get, MetricsRegistry.get_metrics_by_full_name. fold key.
    destruct (PyDict.get (MetricsRegistry._metrics self) key);
      split; intros H; try discriminate; injection H as ->; reflexivity. }
  assert (Herr : forall e, get full_name = Raise e -> e = KeyError key).
  { intros e. unfold get, MetricsRegistry.get_metrics_by_full_name. fold key.
    destruct (PyDict.get (MetricsRegistry._metrics self) key);
      intros H; [discriminate | now injection H as <-]. }
  assert (Hother : forall other, PyStr.upper other = key -> get other = get full_name).
  { unfold get, key, MetricsRegistry.get_metrics_by_full_name.
    intros other E. now rewrite E. }
  refine (conj Hidem (conj eq_refl (conj Hother (conj Hok (conj Herr (conj Hraise _)))))).
  intros metrics prefix ->. rewrite Hraise.
  unfold MetricsRegistry.list_all_metrics_names. simpl.
  now rewrite RegistryFacts.by_full_name_keys.
Qed.

(** ** Enumerations *)

Module EnumFacts.
Import Enum.

Lemma startswith_append (s pattern : string) :
  startswith s pattern = true -> exists rest, s = pattern ++ rest.
Proof.
  revert s; induction pattern as [|p pattern IH]; intros s; simpl.
  - intros _. now exists s.
  - destruct s as [|c s]; [discriminate|].
    intros [Hc Hs]%andb_prop. apply Ascii.eqb_eq in Hc. subst c.
    destruct (IH s Hs) as [rest ->]. now exists rest.
Qed.

Lemma upper_fixed_chars (s : string) :
  PyStr.upper s = s -> PyStr.all_chars PyStr.fixed_by_upper s = true.
Proof.
  induction s as [|c s IH]; simpl; [reflexivity|].
  intros [= Hc Hs]. unfold PyStr.fixed_by_upper at 1.
  now rewrite Hc, Ascii.eqb_refl, IH.
Qed.

(** A name that holds none of the letters a to z does not start with the private
    pattern of a class called [...Metrics], is no permitted sunder name and is
    not "mro". *)
Lemma fixed_not_private (prefix name : string) :
  PyStr.all_chars PyStr.fixed_by_upper name = true ->
  _is_private (prefix ++ "Metrics") name = false.
Proof.
  intros Hfix. unfold _is_private.
  destruct (startswith name ("_" ++ (prefix ++ "Metrics") ++ "__")) eqn:E;
    [|now rewrite andb_false_r].
  exfalso. apply startswith_append in E as [rest ->].
  rewrite !PyStrFacts.all_chars_append in Hfix.
  repeat match goal with
         | H : _ && _ = true |- _ => apply andb_prop in H; destruct H
         end.
  match goal with
  | H : PyStr.all_chars _ "Metrics" = true |- _ => vm_compute in H; discriminate H
  end.
Qed.

Lemma fixed_not_permitted (name : string) :
  PyStr.all_chars PyStr.fixed_by_upper name = true ->
  PyStr.contains permitted_sunder name = false.
Proof.
  intros Hfix. apply PyDictFacts.contains_false. intros Hin. simpl in Hin.
  repeat (destruct Hin as [<-|Hin]; [discriminate|]). exact Hin.
Qed.

Lemma fixed_not_mro (name : string) :
  PyStr.all_chars PyStr.fixed_by_upper name = true -> String.eqb name "mro" = false.
Proof.
  intros Hfix. destruct (String.eqb_spec name "mro") as [->|_];
    [discriminate | reflexivity].
Qed.

(** Names that are neither private nor sunder nor dunder, all different,
    all become members, in order. *)
Lemma fill_members (cls_name : string) (names acc : list (string * string)) :
  (forall item, In item names ->
     _is_private cls_name (fst item) = false
     /\ _is_sunder (fst item) = false /\ _is_dunder (fst item) = false) ->
  NoDup (map fst (acc ++ names)%list) ->
  fill cls_name acc names = Ok (acc ++ names)%list.
Proof.
  revert acc; induction names as [|item names IH]; intros acc Hok Hnd; simpl.
  - now rewrite app_nil_r.
  - destruct (Hok item (or_introl eq_refl)) as [Hp [Hs Hd]].
    unfold setitem. rewrite Hp, Hs, Hd.
    assert (Hnew : PyDict.get acc (fst item) = None).
    { apply PyDictFacts.get_None. rewrite map_app in Hnd. simpl in Hnd.
      apply NoDup_remove_2 in Hnd. intros Hin. apply Hnd.
      apply in_or_app. now left. }
    rewrite Hnew. cbn [bind].
    rewrite IH.
    + now rewrite <- app_assoc.
    + intros item' Hin. apply Hok. now right.
    + now rewrite <- app_assoc.
Qed.

(** Whatever becomes a member was among the names given. *)
Lemma fill_incl (cls_name : string) (names acc found : list (string * string)) :
  fill cls_name acc names = Ok found -> incl found (acc ++ names)%list.
Proof.
  revert acc; induction names as [|item names IH]; intros acc; simpl.
  - intros [= <-]. rewrite app_nil_r. apply incl_refl.
  - unfold setitem.
    destruct (_is_private cls_name (fst item)); cbn [bind].
    { intros H x Hx. apply (IH acc H) in Hx.
      apply in_app_or in Hx as [Hx|Hx]; apply in_or_app; [now left | right; now right]. }
    destruct (_is_sunder (fst item)).
    { destruct (PyStr.contains permitted_sunder (fst item)); cbn [bind]; [|discriminate].
      intros H x Hx. apply (IH acc H) in Hx.
      apply in_app_or in Hx as [Hx|Hx]; apply in_or_app; [now left | right; now right]. }
    destruct (_is_dunder (fst item)); cbn [bind].
    { intros H x Hx. apply (IH acc H) in Hx.
      apply in_app_or in Hx as [Hx|Hx]; apply in_or_app; [now left | right; now right]. }
    destruct (PyDict.get acc (fst item)); cbn [bind]; [discriminate|].
    intros H x Hx. apply (IH _ H) in Hx. now rewrite <- app_assoc in Hx.
Qed.

(** A created enumeration has the class name it was given, and members
    from the names it was given. *)
Lemma create_Ok (class_name : string) (names : list (string * string)) (enum : t) :
  create class_name names = Ok enum ->
  Enum.class_name enum = class_name /\ incl (members enum) names.
Proof.
  unfold create. destruct (fill class_name [] names) as [found|e] eqn:E;
    cbn [bind]; [|discriminate].
  destruct (existsb _ found); [discriminate|].
  destruct (has_null class_name); [discriminate|].
  intros [= <-]. split; [reflexivity|]. exact (fill_incl _ _ _ _ E).
Qed.

Lemma has_null_append (a b : string) : has_null (a ++ b) = has_null a || has_null b.
Proof.
  unfold has_null. rewrite PyStrFacts.all_chars_append. apply negb_andb.
Qed.

Lemma find_pairs (p : string -> bool) (names : list string) :
  find (fun item => p (fst item)) (map (fun name => (name, name)) names)
  = option_map (fun name => (name, name)) (find p names).
Proof.
  induction names as [|name rest IH]; simpl; [reflexivity|].
  destruct (p name); [reflexivity | exact IH].
Qed.

Lemma filter_pairs (p : string -> bool) (names : list string) :
  map fst (filter (fun item => p (fst item)) (map (fun name => (name, name)) names))
  = filter p names.
Proof.
  induction names as [|name rest IH]; simpl; [reflexivity|].
  destruct (p name); simpl; now rewrite IH.
Qed.

(** The loop on different names that hold none of the letters a to z, for a class
    called [...Metrics]: the first sunder name ends it with [ValueError];
    without one, the members are the names that are no dunder names. *)
Lemma fill_upper_names (prefix : string) (names acc : list (string * string)) :
  (forall item, In item names ->
     PyStr.all_chars PyStr.fixed_by_upper (fst item) = true) ->
  NoDup (map fst (acc ++ names)%list) ->
  fill (prefix ++ "Metrics") acc names
  = match find (fun item => _is_sunder (fst item)) names with
    | Some item =>
        Raise (ValueError ("_sunder_ names, such as " ++ repr (fst item)
                             ++ ", are reserved for future Enum use"))
    | None =>
        Ok (acc ++ filter (fun item => negb (_is_dunder (fst item))) names)%list
    end.
Proof.
  revert acc; induction names as [|item names IH]; intros acc Hfix Hnd; simpl.
  - now rewrite app_nil_r.
  - pose proof (Hfix item (or_introl eq_refl)) as Hitem.
    assert (Hrest : forall item', In item' names ->
                      PyStr.all_chars PyStr.fixed_by_upper (fst item') = true)
      by (intros item' Hin; apply Hfix; now right).
    unfold setitem. rewrite (fixed_not_private prefix _ Hitem).
    destruct (_is_sunder (fst item)) eqn:Es.
    + now rewrite (fixed_not_permitted _ Hitem).
    + destruct (_is_dunder (fst item)) eqn:Ed; cbn [bind negb].
      * apply IH; [exact Hrest|].
        rewrite map_app in Hnd |- *. simpl in Hnd. now apply NoDup_remove_1 in Hnd.
      * assert (Hnew : PyDict.get acc (fst item) = None).
        { apply PyDictFacts.get_None. rewrite map_app in Hnd. simpl in Hnd.
          apply NoDup_remove_2 in Hnd. intros Hin. apply Hnd.
          apply in_or_app. now left. }
        rewrite Hnew. cbn [bind].
        rewrite IH; [| exact Hrest | now rewrite <- app_assoc].
        destruct (find (fun item0 => _is_sunder (fst item0)) names);
          [reflexivity|]. now rewrite <- app_assoc.
Qed.

End EnumFacts.

(** C9, as the code has it.  For a registry built from constructed metrics
    whose prefix holds no null character and none of whose full names is
    empty, a sunder name ([_X_]) or a dunder name ([__X__]), the enumeration
    is created; it is named after the prefix followed by "Metrics" and its
    members are the full names of the metrics, in the order of the mapping,
    without repetition, each with itself as value.  An enumeration created
    for a registry with another prefix has another class name. *)
Theorem get_enum_from_metrics_members :
  forall (metrics : list Metrics.t) (prefix : string),
    Forall Metrics.constructed metrics ->
    let self := MetricsRegistry.mk (MetricsRegistry.by_full_name metrics) prefix in
    let names := MetricsRegistry.list_all_metrics_names self in
    Enum.has_null prefix = false ->
    (forall name, In name names ->
       name <> "" /\ Enum._is_sunder name = false /\ Enum._is_dunder name = false) ->
    exists enum,
      MetricsRegistry.get_enum_from_metrics self = Ok enum
      /\ Enum.class_name enum = prefix ++ "Metrics"
      /\ Enum.members enum = map (fun name => (name, name)) names
      /\ map fst (Enum.members enum) = names
      /\ map snd (Enum.members enum) = names
      /\ NoDup names
      /\ (forall name, In name names
                       <-> exists m, In m metrics /\ Metrics.full_name m = name)
      /\ (forall other other_enum,
            MetricsRegistry._prefix other <> prefix ->
            MetricsRegistry.get_enum_from_metrics other = Ok other_enum ->
            Enum.class_name enum <> Enum.class_name other_enum).
Proof.
  intros metrics prefix Hc self names Hnull Hnames.
  destruct (RegistryFacts.by_full_name_invariant metrics) as [Hnd [Hkeyed Hfrom]].
  assert (Hfix : forall name, In name names ->
                   PyStr.all_chars PyStr.fixed_by_upper name = true).
  { intros name Hin. apply EnumFacts.upper_fixed_chars.
    unfold names, MetricsRegistry.list_all_metrics_names, PyDict.keys in Hin. simpl in Hin.
    apply in_map_iff in Hin as [[k m] [<- Hin]]. simpl.
    rewrite (Hkeyed k m Hin). apply MetricsFacts.full_name_upper.
    rewrite Forall_forall in Hc. apply Hc. now apply (Hfrom k m). }
  assert (Hpairs : map fst (MetricsRegistry.enum_names self) = names).
  { unfold MetricsRegistry.enum_names. rewrite map_map. simpl. apply map_id. }
  assert (Hfill : Enum.fill (prefix ++ "Metrics") [] (MetricsRegistry.enum_names self)
                  = Ok (MetricsRegistry.enum_names self)).
  { apply (EnumFacts.fill_members (prefix ++ "Metrics") (MetricsRegistry.enum_names self) []).
    - intros item Hin. unfold MetricsRegistry.enum_names in Hin.
      apply in_map_iff in Hin as [name [<- Hin]]. simpl.
      destruct (Hnames name Hin) as [_ [Hs Hd]].
      split; [|now split]. apply EnumFacts.fixed_not_private. now apply Hfix.
    - simpl. now rewrite Hpairs. }
  assert (Hvalid : existsb (fun item => Enum.invalid_name (fst item))
                     (MetricsRegistry.enum_names self) = false).
  { destruct (existsb _ (MetricsRegistry.enum_names self)) eqn:E; [|reflexivity].
    apply existsb_exists in E as [item [Hin E]]. exfalso.
    unfold MetricsRegistry.enum_names in Hin.
    apply in_map_iff in Hin as [name [<- Hin]]. simpl in E.
    unfold Enum.invalid_name in E. apply orb_prop in E as [E|E].
    - apply String.eqb_eq in E. now apply (Hnames name Hin).
    - rewrite (EnumFacts.fixed_not_mro name (Hfix name Hin)) in E. discriminate. }
  exists (Enum.mk (prefix ++ "Metrics") (MetricsRegistry.enum_names self)).
  assert (Hsnd : map snd (MetricsRegistry.enum_names self) = names).
  { unfold MetricsRegistry.enum_names. rewrite map_map. simpl. apply map_id. }
  refine (conj _ (conj eq_refl (conj eq_refl (conj Hpairs (conj Hsnd (conj Hnd (conj _ _))))))).
  - unfold MetricsRegistry.get_enum_from_metrics, Enum.create.
    simpl MetricsRegistry._prefix. rewrite Hfill. cbn [bind]. rewrite Hvalid.
    rewrite EnumFacts.has_null_append, Hnull. reflexivity.
  - intros name. apply RegistryFacts.by_full_name_keys.
  - intros other other_enum Hne Hother E. apply Hne.
    apply EnumFacts.create_Ok in Hother as [Hcls _].
    simpl in E. rewrite Hcls in E. symmetry.
    now apply PyStrFacts.append_inj_l in E.
Qed.

Lemma get_enum_from_metrics_members_witness :
  exists enum,
    MetricsRegistry.get_enum_from_metrics MAIN_METRICS_REGISTRY = Ok enum
    /\ Enum.class_name enum = "Metrics"
    /\ map fst (Enum.members enum) = ["TEMPERATURE"; "RAIN_FALL"; "WIND_SPEED_AT_2M"].
Proof.
  destruct (get_enum_from_metrics_members [TEMPERATURE; RAIN_FALL; WIND_SPEED_2M] "")
    as [enum [E [Hc [_ [Hf _]]]]].
  - repeat constructor; unfold Metrics.constructed, TEMPERATURE, RAIN_FALL, WIND_SPEED_2M;
      eauto.
  - reflexivity.
  - simpl. intros name [<-|[<-|[<-|[]]]]; repeat split; discriminate.
  - exists enum. split; [exact E|]. split; [exact Hc | exact Hf].
Defined.

(** C9, as it is worded, fails on registries the constructor builds: a
    metric named "_a_" has the full name "_A_", a sunder name, and a blank name
    gives the empty full name; for both the creation of the enumeration
    raises [ValueError].  A metric named "__a__" has the dunder full name
    "__A__", which the enumeration leaves out without any error. *)
Lemma get_enum_from_metrics_refuses_reserved_names :
  MetricsRegistry.get_enum_from_metrics
    (MetricsRegistry.mk
       (MetricsRegistry.by_full_name [Metrics.init "_a_" "C" false None]) "")
  = Raise (ValueError "_sunder_ names, such as '_A_', are reserved for future Enum use")
  /\ MetricsRegistry.get_enum_from_metrics
       (MetricsRegistry.mk
          (MetricsRegistry.by_full_name [Metrics.init " " "C" false None]) "")
     = Raise (ValueError "invalid enum member name(s) ''")
  /\ MetricsRegistry.list_all_metrics_names
       (MetricsRegistry.mk
          (MetricsRegistry.by_full_name
             [TEMPERATURE; Metrics.init "__a__" "C" false None]) "")
     = ["TEMPERATURE"; "__A__"]
  /\ MetricsRegistry.get_enum_from_metrics
       (MetricsRegistry.mk
          (MetricsRegistry.by_full_name
             [TEMPERATURE; Metrics.init "__a__" "C" false None]) "")
     = Ok (Enum.mk "Metrics" [("TEMPERATURE", "TEMPERATURE")])
  /\ MetricsRegistry.get_enum_from_metrics
       (MetricsRegistry.mk (MetricsRegistry.by_full_name [TEMPERATURE])
                           (String Ascii.zero ""))
     = Raise (ValueError "type name must not contain null characters").
Proof. repeat split. Qed.

(** X21. For a registry built from constructed metrics: a sunder full name
    makes [get_enum_from_metrics] raise [ValueError], naming the first one;
    without sunder names, an empty full name makes it raise [ValueError], and
    whatever enumeration it returns has the class name of the prefix followed
    by "Metrics" and as members the full names that are no dunder names, in
    order. *)
Theorem get_enum_from_metrics_cases (metrics : list Metrics.t) (prefix : string) :
  Forall Metrics.constructed metrics ->
  let self := MetricsRegistry.mk (MetricsRegistry.by_full_name metrics) prefix in
  let names := MetricsRegistry.list_all_metrics_names self in
  match find Enum._is_sunder names with
  | Some name =>
      MetricsRegistry.get_enum_from_metrics self
      = Raise (ValueError ("_sunder_ names, such as " ++ Enum.repr name
                             ++ ", are reserved for future Enum use"))
  | None =>
      (In "" names ->
       exists msg, MetricsRegistry.get_enum_from_metrics self = Raise (ValueError msg))
      /\ (forall enum,
            MetricsRegistry.get_enum_from_metrics self = Ok enum ->
            Enum.class_name enum = prefix ++ "Metrics"
            /\ map fst (Enum.members enum)
               = filter (fun name => negb (Enum._is_dunder name)) names)
  end.
Proof.
  intros Hc self names.
  destruct (RegistryFacts.by_full_name_invariant metrics) as [Hnd [Hkeyed Hfrom]].
  assert (Hpairs : map fst (MetricsRegistry.enum_names self) = names).
  { unfold MetricsRegistry.enum_names. rewrite map_map. simpl. apply map_id. }
  assert (Hfix : forall item, In item (MetricsRegistry.enum_names self) ->
                   PyStr.all_chars PyStr.fixed_by_upper (fst item) = true).
  { intros item Hin. unfold MetricsRegistry.enum_names in Hin.
    apply in_map_iff in Hin as [name [<- Hin]]. simpl.
    apply EnumFacts.upper_fixed_chars.
    unfold MetricsRegistry.list_all_metrics_names, PyDict.keys in Hin. simpl in Hin.
    apply in_map_iff in Hin as [[k m] [<- Hin]]. simpl.
    rewrite (Hkeyed k m Hin). apply MetricsFacts.full_name_upper.
    rewrite Forall_forall in Hc. apply Hc. now apply (Hfrom k m). }
  pose proof (EnumFacts.fill_upper_names prefix (MetricsRegistry.enum_names self) []
                Hfix) as Hfill.
  simpl app in Hfill. rewrite Hpairs in Hfill. specialize (Hfill Hnd).
  assert (Hfind : find (fun item => Enum._is_sunder (fst item))
                       (MetricsRegistry.enum_names self)
                  = option_map (fun name => (name, name)) (find Enum._is_sunder names)).
  { apply EnumFacts.find_pairs. }
  assert (Hfilter : map fst (filter (fun item => negb (Enum._is_dunder (fst item)))
                               (MetricsRegistry.enum_names self))
                    = filter (fun name => negb (Enum._is_dunder name)) names).
  { apply (EnumFacts.filter_pairs (fun name => negb (Enum._is_dunder name))). }
  rewrite Hfind in Hfill.
  unfold MetricsRegistry.get_enum_from_metrics, Enum.create.
  simpl MetricsRegistry._prefix.
  destruct (find Enum._is_sunder names) as [name|]; simpl in Hfill; rewrite Hfill;
    cbn [bind]; [reflexivity|].
  split.
  - intros Hin.
    assert (Hex : existsb (fun item => Enum.invalid_name (fst item))
                    (filter (fun item => negb (Enum._is_dunder (fst item)))
                       (MetricsRegistry.enum_names self)) = true).
    { apply existsb_exists. exists ("", ""). split; [|reflexivity].
      apply filter_In. split; [|reflexivity].
      unfold MetricsRegistry.enum_names. fold names.
      now apply (in_map (fun name => (name, name))). }
    rewrite Hex. eexists. reflexivity.
  - intros enum.
    destruct (existsb _ _); [discriminate|].
    destruct (Enum.has_null (prefix ++ "Metrics")); [discriminate|].
    intros [= <-]. simpl. split; [reflexivity | exact Hfilter].
Qed.

Lemma get_enum_from_metrics_cases_witness :
  MetricsRegistry.get_enum_from_metrics
    (MetricsRegistry.mk
       (MetricsRegistry.by_full_name
          [TEMPERATURE; Metrics.init "_a_" "C" false None;
           Metrics.init "_b_" "C" false None]) "Odd")
  = Raise (ValueError "_sunder_ names, such as '_A_', are reserved for future Enum use").
Proof.
  refine (get_enum_from_metrics_cases
            [TEMPERATURE; Metrics.init "_a_" "C" false None;
             Metrics.init "_b_" "C" false None] "Odd" _).
  repeat constructor; unfold Metrics.constructed, TEMPERATURE; eauto.
Defined.

(** C6. The full name is the name, an underscore and the aggregation when
    there is one, the name alone otherwise.  Two records built from the same
    name, unit and cumulative flag with different aggregations have
    different full names, and a registry that receives both, after any
    other metrics, files both: each is found under its own full name. *)
Theorem aggregation_gives_distinct_full_names :
  forall (name unit : string) (is_cumulative : bool) (a b : option Aggregation),
    a <> b ->
    let m1 := Metrics.init name unit is_cumulative a in
    let m2 := Metrics.init name unit is_cumulative b in
    (forall m, Metrics.full_name m
               = match Metrics.aggregation m with
                 | Some x => Metrics.name m ++ "_" ++ Aggregation_value x
                 | None => Metrics.name m
                 end)
    /\ Metrics.full_name m1 <> Metrics.full_name m2
    /\ (forall prefix,
          MetricsRegistry.list_all_metrics_names
            (MetricsRegistry.mk (MetricsRegistry.by_full_name [m1; m2]) prefix)
          = [Metrics.full_name m1; Metrics.full_name m2])
    /\ (forall others prefix,
          let self := MetricsRegistry.mk
                        (MetricsRegistry.by_full_name (others ++ [m1; m2])%list) prefix in
          MetricsRegistry.get_metrics_by_full_name self (Metrics.full_name m1) = Ok m1
          /\ MetricsRegistry.get_metrics_by_full_name self (Metrics.full_name m2) = Ok m2).
Proof.
  intros name unit is_cumulative a b Hab m1 m2.
  assert (Hne : Metrics.full_name m1 <> Metrics.full_name m2)
    by (apply MetricsFacts.full_name_aggregation; exact Hab).
  refine (conj (fun m => eq_refl) (conj Hne (conj _ _))).
  - intros prefix.
    unfold MetricsRegistry.list_all_metrics_names, MetricsRegistry.by_full_name.
    cbn [MetricsRegistry._metrics fold_left MetricsRegistry.insert PyDict.set PyDict.empty].
    destruct (String.eqb_spec (Metrics.full_name m2) (Metrics.full_name m1)) as [E|_];
      [now contradiction Hne | reflexivity].
  - intros others prefix self.
    assert (U1 : PyStr.upper (Metrics.full_name m1) = Metrics.full_name m1)
      by (apply MetricsFacts.full_name_upper; now exists name, unit, is_cumulative, a).
    assert (U2 : PyStr.upper (Metrics.full_name m2) = Metrics.full_name m2)
      by (apply MetricsFacts.full_name_upper; now exists name, unit, is_cumulative, b).
    unfold MetricsRegistry.get_metrics_by_full_name, self. simpl.
    rewrite U1, U2. unfold MetricsRegistry.by_full_name.
    rewrite fold_left_app. simpl. unfold MetricsRegistry.insert.
    rewrite PyDictFacts.get_set_same.
    rewrite PyDictFacts.get_set_other by exact Hne.
    now rewrite PyDictFacts.get_set_same.
Qed.

Lemma aggregation_gives_distinct_full_names_witness :
  MetricsRegistry.list_all_metrics_names
    (MetricsRegistry.mk
       (MetricsRegistry.by_full_name
          [Metrics.init "temperature" "C" false None;
           Metrics.init "temperature" "C" false (Some MIN)]) "")
  = ["TEMPERATURE"; "TEMPERATURE_MIN"].
Proof.
  refine (proj1 (proj2 (proj2
    (aggregation_gives_distinct_full_names "temperature" "C" false
       None (Some MIN) _))) "").
  discriminate.
Defined.

(** C4. For a registry built from constructed metrics and a prefix that is
    not in use, filtering by any list of requested names succeeds; the new
    registry carries the new prefix and keeps, in order, exactly the entries
    of the source whose full name equals a requested name up to case.  A
    requested name that matches nothing contributes nothing and raises
    nothing. *)
Theorem generate_registry_by_filtering_selects :
  forall (source : list Metrics.t) (source_prefix : string)
         (requested : list string) (prefix : string)
         (cls : MetricsRegistry.prefixes),
    Forall Metrics.constructed source ->
    ~ In prefix (MetricsRegistry._get_prefixes cls) ->
    let self := MetricsRegistry.mk (MetricsRegistry.by_full_name source) source_prefix in
    let requests (name : string) := existsb (fun r => PyStr.same_ignoring_case r name) requested in
    exists new,
      MetricsRegistry.generate_registry_by_filtering self requested prefix cls
      = (Ok new, MetricsRegistry._add_prefix cls prefix)
      /\ MetricsRegistry._prefix new = prefix
      /\ MetricsRegistry._metrics new
         = filter (fun item => requests (fst item)) (MetricsRegistry._metrics self)
      /\ (forall m, In m (PyDict.values (MetricsRegistry._metrics new))
                    <-> In m (PyDict.values (MetricsRegistry._metrics self))
                        /\ exists r, In r requested
                                     /\ PyStr.upper r = PyStr.upper (Metrics.full_name m)).
Proof.
  intros source source_prefix requested prefix cls Hsrc Hfresh self requests.
  destruct (RegistryFacts.by_full_name_invariant source) as [Hnd [Hkeyed Hfrom]].
  assert (Hupper : forall k m, In (k, m) (MetricsRegistry.by_full_name source) ->
                               PyStr.upper k = k).
  { intros k m Hin. rewrite (Hkeyed k m Hin).
    apply MetricsFacts.full_name_upper.
    rewrite Forall_forall in Hsrc. apply Hsrc. now apply (Hfrom k m). }
  assert (Hsame : forall k m, In (k, m) (MetricsRegistry.by_full_name source) ->
                    PyStr.contains (map PyStr.upper requested) k = requests k).
  { intros k m Hin. unfold PyStr.contains, requests, PyStr.same_ignoring_case.
    rewrite (Hupper k m Hin).
    induction requested as [|r rs IH]; simpl; [reflexivity|].
    now rewrite IH, String.eqb_sym. }
  assert (Hfilter :
    filter (fun item => PyStr.contains (map PyStr.upper requested) (fst item))
           (MetricsRegistry.by_full_name source)
    = filter (fun item => requests (fst item)) (MetricsRegistry.by_full_name source)).
  { apply filter_ext_in. intros [k m] Hin. simpl. now apply (Hsame k m). }
  exists (MetricsRegistry.mk
            (filter (fun item => requests (fst item)) (MetricsRegistry.by_full_name source))
            prefix).
  split; [|split; [reflexivity | split; [reflexivity|]]].
  - unfold MetricsRegistry.generate_registry_by_filtering.
    rewrite (PrefixFacts.init_prefix _ (Some prefix) cls).
    apply PyDictFacts.contains_false in Hfresh. rewrite Hfresh.
    unfold self, PyDict.items. simpl MetricsRegistry._metrics.
    now rewrite RegistryFacts.by_full_name_filter, Hfilter.
  - intros m. unfold PyDict.values. simpl. rewrite !in_map_iff. split.
    + intros [[k m'] [E Hin]]. simpl in E. subst m'.
      apply filter_In in Hin as [Hin Hreq]. simpl in Hreq.
      split; [now exists (k, m)|].
      unfold requests in Hreq. apply existsb_exists in Hreq as [r [Hr E]].
      exists r. split; [exact Hr|].
      apply String.eqb_eq in E. now rewrite <- (Hkeyed k m Hin).
    + intros [[[k m'] [E Hin]] [r [Hr Er]]]. simpl in E. subst m'.
      exists (k, m). split; [reflexivity|].
      apply filter_In. split; [exact Hin|]. simpl.
      unfold requests. apply existsb_exists. exists r. split; [exact Hr|].
      apply String.eqb_eq. now rewrite (Hkeyed k m Hin).
Qed.

Lemma generate_registry_by_filtering_selects_witness :
  exists new,
    MetricsRegistry.generate_registry_by_filtering
      (MetricsRegistry.mk
         (MetricsRegistry.by_full_name
            [Metrics.init "temperature" "C" false (Some MIN);
             Metrics.init "temperature" "C" false (Some MAX);
             Metrics.init "temperature" "C" false (Some MEAN)]) "Aggregated")
      ["temperature_min"; "TEMPERATURE_MAX"; "HUMIDITY"] "Partial"
      [("", ""); ("Aggregated", "Aggregated")]
    = (Ok new, [("", ""); ("Aggregated", "Aggregated"); ("Partial", "Partial")])
    /\ MetricsRegistry.list_all_metrics_names new
       = ["TEMPERATURE_MIN"; "TEMPERATURE_MAX"].
Proof.
  destruct (generate_registry_by_filtering_selects
              [Metrics.init "temperature" "C" false (Some MIN);
               Metrics.init "temperature" "C" false (Some MAX);
               Metrics.init "temperature" "C" false (Some MEAN)]
              "Aggregated" ["temperature_min"; "TEMPERATURE_MAX"; "HUMIDITY"]
              "Partial" [("", ""); ("Aggregated", "Aggregated")])
    as [new [Hcall [_ [Hm _]]]].
  - repeat constructor; unfold Metrics.constructed; eauto.
  - simpl. intros [H|[H|[]]]; discriminate.
  - exists new. split; [exact Hcall|].
    unfold MetricsRegistry.list_all_metrics_names. rewrite Hm. reflexivity.
Defined.

(* ================================================================= *)
(** * Properties of the metric records *)

Module StripFacts.
Import PyStr.

Lemma upper_lstrip (s : string) : lstrip (upper s) = upper (lstrip s).
Proof.
  induction s as [|c s IH]; simpl; [reflexivity|].
  rewrite PyStrFacts.isspace_upper_char. now destruct (isspace c).
Qed.

Lemma upper_rstrip (s : string) : rstrip (upper s) = upper (rstrip s).
Proof.
  induction s as [|c s IH]; simpl; [reflexivity|].
  rewrite IH, PyStrFacts.isspace_upper_char.
  destruct (rstrip s); simpl; [now destruct (isspace c) | reflexivity].
Qed.

Lemma upper_strip (s : string) : strip (upper s) = upper (strip s).
Proof. unfold strip. now rewrite upper_lstrip, upper_rstrip. Qed.

End StripFacts.

(** C7, as the code has it.  The constructor stores the name in upper case
    with the whitespace at both ends removed and every run of whitespace
    that is left replaced by one underscore; on a name that neither starts
    nor ends with whitespace this is the name as the specification words it.
    The unit, the cumulative flag and the aggregation are stored as given. *)
Theorem name_is_stripped_and_underscored :
  forall (name unit : string) (is_cumulative : bool) (aggregation : option Aggregation),
    let m := Metrics.init name unit is_cumulative aggregation in
    Metrics.name m = Metrics.upper name
    /\ Metrics.name m
       = PyStr.replace_internal_runs false "" (PyStr.strip (PyStr.upper name))
    /\ Metrics.name m = specified_name (PyStr.strip name)
    /\ (PyStr.strip name = name -> Metrics.name m = specified_name name)
    /\ Metrics.name (Metrics.init "wind speed at 2m" unit is_cumulative aggregation)
       = "WIND_SPEED_AT_2M"
    /\ Metrics.unit m = unit
    /\ Metrics.is_cumulative m = is_cumulative
    /\ Metrics.aggregation m = aggregation.
Proof.
  intros name unit is_cumulative aggregation m.
  assert (H : Metrics.name m
              = PyStr.replace_internal_runs false "" (PyStr.strip (PyStr.upper name)))
    by apply PyStrFacts.join_split_strip.
  assert (H' : Metrics.name m = specified_name (PyStr.strip name)).
  { rewrite H. unfold specified_name. now rewrite StripFacts.upper_strip. }
  refine (conj eq_refl (conj H (conj H' (conj _ (conj eq_refl
            (conj eq_refl (conj eq_refl eq_refl))))))).
  intros E. now rewrite E in H'.
Qed.

(** C7, as it is worded, fails on a name with a leading blank: the
    constructor drops the blank, the worded normalisation keeps it. *)
Lemma name_keeps_no_leading_blank :
  Metrics.name (Metrics.init " a" "C" false None) = "A"
  /\ specified_name " a" = " A"
  /\ Metrics.name (Metrics.init " a" "C" false None) <> specified_name " a".
Proof. repeat split. discriminate. Qed.

(** C8, as the code has it.  The dictionary of a record holds the key
    "aggregation" exactly when the aggregation is set.  For a record built by
    the constructor without aggregation, the dictionary is name, unit and
    cumulative flag; unpacking it into the constructor together with an
    aggregation gives a record with the same name, unit and cumulative flag,
    that aggregation, and another full name. *)
Theorem dict_omits_unset_aggregation :
  forall (name unit : string) (is_cumulative : bool) (a : Aggregation),
    let m := Metrics.init name unit is_cumulative None in
    (forall m0, PyDict.mem (Metrics.dict m0) "aggregation" = false
                <-> Metrics.aggregation m0 = None)
    /\ Metrics.dict m = [ ("name", VStr (Metrics.name m));
                          ("unit", VStr unit);
                          ("is_cumulative", VBool is_cumulative) ]
    /\ exists m',
         Metrics.derive m a = Ok m'
         /\ Metrics.name m' = Metrics.name m
         /\ Metrics.unit m' = Metrics.unit m
         /\ Metrics.is_cumulative m' = Metrics.is_cumulative m
         /\ Metrics.aggregation m' = Some a
         /\ Metrics.full_name m' <> Metrics.full_name m.
Proof.
  intros name unit is_cumulative a m.
  split; [|split; [reflexivity|]].
  - intros [n u c [b|]]; simpl; split; intros H; try reflexivity; discriminate.
  - exists (Metrics.mk (Metrics.name m) unit is_cumulative (Some a)).
    split; [|repeat split].
    + unfold Metrics.derive, Metrics.new. simpl.
      unfold Metrics.init. now rewrite MetricsFacts.validator_idem.
    + apply MetricsFacts.full_name_aggregation. discriminate.
Qed.

(** C8, as it is worded, fails on a record whose aggregation is set: its
    dictionary already holds the key "aggregation", and giving the keyword a
    second time is refused before the constructor runs, so no record is
    produced. *)
Lemma derive_refuses_second_aggregation :
  Metrics.derive (Metrics.init "temperature" "C" false (Some MIN)) MAX
  = Raise (TypeError "got multiple values for keyword argument 'aggregation'")
  /\ ~ exists m', Metrics.derive (Metrics.init "temperature" "C" false (Some MIN)) MAX
                  = Ok m'.
Proof. split; [reflexivity | intros [m' H]; discriminate]. Qed.

(** *** The module-level statements run as written *)

Example TEMPERATURE_MIN_value :
  TEMPERATURE_MIN = Ok (Metrics.mk "TEMPERATURE" "C" false (Some MIN)).
Proof. reflexivity. Qed.

Example MAIN_METRICS_REGISTRY_value :
  MAIN_METRICS_REGISTRY_call = (Ok MAIN_METRICS_REGISTRY, [("", "")])
  /\ MetricsRegistry.list_all_metrics_names MAIN_METRICS_REGISTRY
     = ["TEMPERATURE"; "RAIN_FALL"; "WIND_SPEED_AT_2M"].
Proof. split; reflexivity. Qed.

Example METRICS_AND_AGGREGATION_REGISTRY_value :
  exists registry,
    METRICS_AND_AGGREGATION_REGISTRY_call (snd MAIN_METRICS_REGISTRY_call)
    = (Ok registry, [("", ""); ("Aggregated", "Aggregated")])
    /\ MetricsRegistry.list_all_metrics_names registry
       = ["TEMPERATURE_MIN"; "TEMPERATURE_MAX"; "TEMPERATURE_MEAN"; "TEMPERATURE_LAST"].
Proof. eexists. split; reflexivity. Qed.

(* ================================================================= *)
(** * Properties of the time-series filter *)

Module PandasFacts.
Import Pandas.

Lemma select_map (A B : Type) (f : A -> B) (mask : list bool) (xs : list A) :
  select mask (map f xs) = map f (select mask xs).
Proof.
  revert xs; induction mask as [|b mask IH]; intros [|x xs]; simpl; try reflexivity.
  destruct b; simpl; now rewrite IH.
Qed.

Lemma select_length (A : Type) (mask : list bool) (xs : list A) :
  List.length xs = List.length mask -> List.length (select mask xs) = kept mask.
Proof.
  revert xs; induction mask as [|b mask IH]; intros [|x xs]; simpl;
    try reflexivity; try discriminate.
  intros [= H]. unfold kept. simpl. destruct b; simpl; [f_equal|]; now apply IH.
Qed.

Lemma select_repeat (A : Type) (a : A) (mask : list bool) :
  select mask (repeat a (List.length mask)) = repeat a (kept mask).
Proof.
  induction mask as [|b mask IH]; [reflexivity|].
  unfold kept. simpl. destruct b; simpl; now rewrite IH.
Qed.

(** Filtering by a test is selecting by the mask of the test. *)
Lemma filter_select (A : Type) (p : A -> bool) (xs : list A) :
  filter p xs = select (map p xs) xs.
Proof.
  induction xs as [|x xs IH]; [reflexivity|].
  simpl. destruct (p x); now rewrite IH.
Qed.

Lemma values_select (mask : list bool) (s : Series) :
  values (select_series mask s) = select mask (values s).
Proof. destruct s; simpl; now rewrite ?select_map. Qed.

Lemma columns_select_rows (mask : list bool) (df : DataFrame) :
  columns (select_rows mask df) = columns df.
Proof.
  unfold columns, PyDict.keys, select_rows. rewrite map_map. reflexivity.
Qed.

Lemma select_rows_app (mask : list bool) (df df' : DataFrame) :
  select_rows mask (df ++ df')%list
  = (select_rows mask df ++ select_rows mask df')%list.
Proof. apply map_app. Qed.

Lemma add_column_select (name : string) (mask : list bool)
    (xs : list scalar) (rs : list row) :
  add_column name (select mask xs) (select mask rs)
  = select mask (add_column name xs rs).
Proof.
  revert xs rs; induction mask as [|b mask IH]; intros xs rs.
  - now destruct xs, rs.
  - destruct xs as [|x xs]; [reflexivity|].
    destruct rs as [|r rs].
    + simpl. destruct b; simpl; [reflexivity | now destruct (select mask xs)].
    + simpl. destruct b; simpl; now rewrite IH.
Qed.

Lemma add_column_length (name : string) (xs : list scalar) (rs : list row) :
  List.length xs = List.length rs ->
  List.length (add_column name xs rs) = List.length rs.
Proof.
  revert rs; induction xs as [|x xs IH]; intros [|r rs]; simpl;
    try reflexivity; try discriminate.
  intros [= H]. now rewrite IH.
Qed.

Lemma rows_of_length (n : nat) (df : DataFrame) :
  aligned n df = true -> List.length (rows_of n df) = n.
Proof.
  induction df as [|[name s] df IH]; simpl.
  - intros _. apply repeat_length.
  - intros [Hs Hdf]%andb_prop. apply Nat.eqb_eq in Hs. unfold length in Hs.
    rewrite add_column_length; rewrite (IH Hdf); [reflexivity | exact Hs].
Qed.

(** Selecting rows of an aligned frame selects among its rows. *)
Lemma rows_of_select (mask : list bool) (df : DataFrame) :
  aligned (List.length mask) df = true ->
  rows_of (kept mask) (select_rows mask df)
  = select mask (rows_of (List.length mask) df).
Proof.
  induction df as [|[name s] df IH]; simpl.
  - intros _. now rewrite select_repeat.
  - intros [_ Hdf]%andb_prop.
    now rewrite values_select, (IH Hdf), add_column_select.
Qed.

Lemma nrows_select_rows (mask : list bool) (df : DataFrame) :
  df <> [] -> aligned (List.length mask) df = true ->
  nrows (select_rows mask df) = kept mask.
Proof.
  destruct df as [|[name s] df]; [intros H; now contradiction H|].
  intros _. simpl. intros [Hs _]%andb_prop. apply Nat.eqb_eq in Hs.
  unfold length in *. rewrite values_select. now apply select_length.
Qed.

Lemma rows_select_rows (mask : list bool) (df : DataFrame) :
  df <> [] -> aligned (nrows df) df = true -> List.length mask = nrows df ->
  rows (select_rows mask df) = select mask (rows df).
Proof.
  intros Hne Hal Hlen. unfold rows. rewrite <- Hlen in *.
  rewrite nrows_select_rows by assumption. now apply rows_of_select.
Qed.

(** The entries of a column, read off the rows. *)
Lemma rows_of_column (n : nat) (df : DataFrame) (column : string) (s : Series) :
  aligned n df = true -> PyDict.get df column = Some s ->
  map (fun r => PyDict.get r column) (rows_of n df) = map Some (values s).
Proof.
  induction df as [|[name s0] df IH]; simpl; [discriminate|].
  intros [Hs Hdf]%andb_prop Hget. apply Nat.eqb_eq in Hs. unfold length in Hs.
  pose proof (rows_of_length n df Hdf) as Hrows.
  assert (Hlen : List.length (values s0) = List.length (rows_of n df)) by congruence.
  destruct (String.eqb_spec column name) as [->|Hne].
  - injection Hget as ->. clear IH.
    revert Hlen. generalize (rows_of n df) as rs. generalize (values s) as xs.
    induction xs as [|x xs IHx]; intros [|r rs]; simpl; try reflexivity; try discriminate.
    intros [= H]. rewrite String.eqb_refl. now rewrite IHx.
  - rewrite <- (IH Hdf Hget). clear IH.
    revert Hlen. generalize (rows_of n df) as rs. generalize (values s0) as xs.
    induction xs as [|x xs IHx]; intros [|r rs]; simpl; try reflexivity; try discriminate.
    intros [= H]. destruct (String.eqb_spec column name); [contradiction|].
    now rewrite IHx.
Qed.

Lemma aligned_column (n : nat) (df : DataFrame) (column : string) (s : Series) :
  aligned n df = true -> PyDict.get df column = Some s -> length s = n.
Proof.
  intros Hal Hget. apply PyDictFacts.get_In in Hget.
  unfold aligned in Hal. rewrite forallb_forall in Hal.
  specialize (Hal _ Hget). now apply Nat.eqb_eq in Hal.
Qed.

(** The mask [isin] computes on a column is the test [row_isin] on the
    rows. *)
Lemma rows_isin_mask (df : DataFrame) (column : string) (s : Series)
    (allowed : list string) :
  aligned (nrows df) df = true -> PyDict.get df column = Some s ->
  map (row_isin column allowed) (rows df) = map (isin_scalar allowed) (values s).
Proof.
  intros Hal Hget. unfold rows.
  pose proof (rows_of_column (nrows df) df column s Hal Hget) as H.
  apply (f_equal (map (fun o : option scalar =>
                         match o with Some x => isin_scalar allowed x | None => false end)))
    in H.
  rewrite !map_map in H. exact H.
Qed.

End PandasFacts.

Module FilterFacts.
Import Pandas Pandera.

Lemma known_names_value :
  known_names = ["TEMPERATURE"; "RAIN_FALL"; "WIND_SPEED_AT_2M"].
Proof. reflexivity. Qed.

(** Validation returns the frame it was given, or raises [SchemaError]. *)
Lemma validate_cases (data : DataFrame) :
  (validate Timeseries data = Ok data /\ conforms data)
  \/ (exists column, validate Timeseries data = Raise (SchemaError column)
                     /\ ~ conforms data).
Proof.
  unfold validate, Timeseries, conforms. cbn [check_columns column_name column_dtype column_isin].
  fold known_names.
  destruct (PyDict.get data "metrics") as [sm|] eqn:Em.
  2:{ right. exists "metrics". split; [reflexivity|].
      intros [? [? [? [H _]]]]. discriminate. }
  destruct (check_dtype Str sm) eqn:Cm.
  2:{ right. exists "metrics". split; [reflexivity|].
      intros [? [? [? [H [H' _]]]]]. congruence. }
  cbn [check_isin andb].
  destruct (forallb (isin_scalar known_names) (values sm)) eqn:Im.
  2:{ right. exists "metrics". split; [reflexivity|].
      intros [? [? [? [H [_ [H' _]]]]]]. congruence. }
  destruct (PyDict.get data "timestamp") as [st|] eqn:Et.
  2:{ right. exists "timestamp". split; [reflexivity|].
      intros [? [? [? [_ [_ [_ [H _]]]]]]]. discriminate. }
  destruct (check_dtype Datetime st) eqn:Ct.
  2:{ right. exists "timestamp". split; [reflexivity|].
      intros [? [? [? [_ [_ [_ [H [H' _]]]]]]]]. congruence. }
  cbn [check_isin andb].
  destruct (PyDict.get data "value") as [sv|] eqn:Ev.
  2:{ right. exists "value". split; [reflexivity|].
      intros [? [? [? [_ [_ [_ [_ [_ [H _]]]]]]]]]. discriminate. }
  destruct (check_dtype Float sv) eqn:Cv.
  2:{ right. exists "value". split; [reflexivity|].
      intros [? [? [? [_ [_ [_ [_ [_ [H H']]]]]]]]]. congruence. }
  left. split; [reflexivity|]. now exists sm, st, sv.
Qed.

(** In a frame that conforms every entry has the declared kind. *)
Lemma conforms_entries (data : DataFrame) (x : scalar) :
  conforms data ->
  (entry_of data "metrics" x -> isin_scalar known_names x = true)
  /\ (entry_of data "timestamp" x -> is_datetime x = true)
  /\ (entry_of data "value" x -> is_float x = true).
Proof.
  intros [sm [st [sv [Em [Cm [Im [Et [Ct [Ev Cv]]]]]]]]].
  repeat split; intros [s [Hget Hin]].
  - assert (s = sm) by congruence. subst s.
    rewrite forallb_forall in Im. now apply Im.
  - assert (s = st) by congruence. subst s.
    destruct st; try discriminate. simpl in Ct, Hin.
    apply in_map_iff in Hin as [o [<- Ho]].
    rewrite forallb_forall in Ct. specialize (Ct o Ho). now destruct o.
  - assert (s = sv) by congruence. subst s.
    destruct sv; try discriminate. simpl in Hin.
    apply in_map_iff in Hin as [o [<- _]]. reflexivity.
Qed.

(** Below the decorator nothing raises once the column [metrics] exists. *)
Lemma body_returns (data : DataFrame) (metrics : list string) (sm : Series) :
  PyDict.get data "metrics" = Some sm ->
  let mask := map (isin_scalar metrics) (values sm) in
  filter_metrics_body data metrics
  = Ok (PyDict.remove
          (select_rows mask (PyDict.set data "is_in_metrics" (BoolSeries mask)))
          "is_in_metrics").
Proof.
  intros Hget mask. unfold filter_metrics_body, getitem. rewrite Hget.
  cbn [bind]. unfold assign, isin, query. fold mask.
  rewrite PyDictFacts.get_set_same. cbn [bind]. unfold drop.
  assert (Hmem : PyDict.mem
            (select_rows mask (PyDict.set data "is_in_metrics" (BoolSeries mask)))
            "is_in_metrics" = true).
  { apply PyDictFacts.mem_In. fold (columns (select_rows mask
      (PyDict.set data "is_in_metrics" (BoolSeries mask)))).
    rewrite PandasFacts.columns_select_rows. apply PyDictFacts.In_keys_set. now left. }
  now rewrite Hmem.
Qed.

(** When the frame has no column named like the helper, the result is the
    selection of the frame's own columns. *)
Lemma body_selects (data : DataFrame) (metrics : list string) (sm : Series) :
  PyDict.get data "metrics" = Some sm ->
  ~ In "is_in_metrics" (columns data) ->
  filter_metrics_body data metrics
  = Ok (select_rows (map (isin_scalar metrics) (values sm)) data).
Proof.
  intros Hget Hfresh. rewrite (body_returns data metrics sm Hget). f_equal.
  rewrite PyDictFacts.set_fresh by exact Hfresh.
  rewrite PandasFacts.select_rows_app. simpl.
  apply PyDictFacts.remove_fresh_end.
  fold (columns (select_rows (map (isin_scalar metrics) (values sm)) data)).
  now rewrite PandasFacts.columns_select_rows.
Qed.

End FilterFacts.

(** C2. A frame with an entry of the column [metrics] that is not one of
    the full names of the main registry, or an entry of [timestamp] that is
    no datetime, or an entry of [value] that is no float, makes the filter
    raise [SchemaError]; so does a frame with the entry "RAINFALL", whatever
    its other rows hold, and the sample frame [wrong_time_series].  The error
    is the one validation raises, for every list of metrics: the body of the
    filter is not reached and no frame is returned.  The filter raises
    nothing else. *)
Theorem filter_metrics_rejects_bad_frames :
  forall (data : Pandas.DataFrame) (metrics : list string),
    ((exists x, Pandas.entry_of data "metrics" x
                /\ Pandas.isin_scalar known_names x = false)
     \/ (exists x, Pandas.entry_of data "timestamp" x /\ Pandas.is_datetime x = false)
     \/ (exists x, Pandas.entry_of data "value" x /\ Pandas.is_float x = false)
     -> exists column, filter_metrics data metrics = Raise (SchemaError column))
    /\ (Pandas.entry_of data "metrics" (Pandas.SStr "RAINFALL") ->
        filter_metrics data metrics = Raise (SchemaError "metrics"))
    /\ (forall e, Pandera.validate Timeseries data = Raise e ->
                  filter_metrics data metrics = Raise e)
    /\ (forall e, filter_metrics data metrics = Raise e ->
                  Pandera.validate Timeseries data = Raise e
                  /\ exists column, e = SchemaError column)
    /\ (forall t1 t2, filter_metrics (wrong_time_series t1 t2) metrics
                      = Raise (SchemaError "metrics")).
Proof.
  intros data metrics.
  assert (Hraise : forall e, Pandera.validate Timeseries data = Raise e ->
                             filter_metrics data metrics = Raise e).
  { intros e H. unfold filter_metrics, Pandera.check_input. now rewrite H. }
  assert (Hbad : ~ conforms data ->
                 exists column, filter_metrics data metrics = Raise (SchemaError column)).
  { intros Hn. destruct (FilterFacts.validate_cases data) as [[_ Hc]|[column [Hv _]]].
    - now contradiction Hn.
    - exists column. now apply Hraise. }
  refine (conj _ (conj _ (conj Hraise (conj _ _)))).
  - intros Hentry. apply Hbad. intros Hc.
    destruct Hentry as [[x [Hx E]]|[[x [Hx E]]|[x [Hx E]]]];
      destruct (FilterFacts.conforms_entries data x Hc) as [H1 [H2 H3]].
    + rewrite (H1 Hx) in E. discriminate.
    + rewrite (H2 Hx) in E. discriminate.
    + rewrite (H3 Hx) in E. discriminate.
  - intros [s [Hget Hin]]. apply Hraise.
    unfold Pandera.validate, Timeseries.
    cbn [Pandera.check_columns Pandera.column_name Pandera.column_dtype Pandera.column_isin].
    rewrite Hget.
    assert (Hisin : Pandera.check_isin
              (Some (MetricsRegistry.list_all_metrics_names MAIN_METRICS_REGISTRY)) s
              = false).
    { unfold Pandera.check_isin.
      destruct (forallb _ (Pandas.values s)) eqn:E; [|reflexivity].
      rewrite forallb_forall in E. specialize (E _ Hin). discriminate. }
    rewrite Hisin, andb_false_r. reflexivity.
  - intros e H. destruct (FilterFacts.validate_cases data) as [[Hv Hc]|[column [Hv _]]].
    + exfalso. destruct Hc as [sm [_ [_ [Hget _]]]].
      unfold filter_metrics, Pandera.check_input in H. rewrite Hv in H.
      cbn [bind] in H. rewrite (FilterFacts.body_returns data metrics sm Hget) in H.
      discriminate.
    + rewrite (Hraise _ Hv) in H. injection H as <-.
      split; [exact Hv | now exists column].
  - intros t1 t2. reflexivity.
Qed.

Lemma filter_metrics_rejects_bad_frames_witness :
  exists column,
    filter_metrics (wrong_time_series 1 2) ["TEMPERATURE"] = Raise (SchemaError column).
Proof.
  apply (proj1 (filter_metrics_rejects_bad_frames (wrong_time_series 1 2) ["TEMPERATURE"])).
  left. exists (Pandas.SStr "RAINFALL"). split; [|reflexivity].
  exists (Pandas.ObjectSeries [Pandas.SStr "TEMPERATURE"; Pandas.SStr "RAINFALL"]).
  split; [reflexivity | simpl; tauto].
Defined.

(** C3. On a frame that passes validation, whose columns have one length
    and none of which is named like the helper column, the filter returns a
    frame with the columns of the input in their order, hence without the
    helper column, whose rows are the rows of the input whose [metrics] entry
    is in the list the caller gave, in the order of the input.  For an input
    of the three columns [metrics], [timestamp] and [value] the result has
    these three columns; for an empty list it has no rows. *)
Theorem filter_metrics_keeps_listed_rows :
  forall (data : Pandas.DataFrame) (metrics : list string),
    ~ In "is_in_metrics" (Pandas.columns data) ->
    Pandas.aligned (Pandas.nrows data) data = true ->
    Pandera.validate Timeseries data = Ok data ->
    exists out,
      filter_metrics data metrics = Ok out
      /\ Pandas.columns out = Pandas.columns data
      /\ ~ In "is_in_metrics" (Pandas.columns out)
      /\ (Permutation (Pandas.columns data) ["metrics"; "timestamp"; "value"] ->
          Permutation (Pandas.columns out) ["metrics"; "timestamp"; "value"])
      /\ Pandas.rows out
         = filter (Pandas.row_isin "metrics" metrics) (Pandas.rows data)
      /\ (metrics = [] -> Pandas.rows out = []).
Proof.
  intros data metrics Hfresh Hal Hvalid.
  destruct (FilterFacts.validate_cases data) as [[_ Hc]|[column [Hv _]]];
    [|congruence].
  destruct Hc as [sm [_ [_ [Hget _]]]].
  set (mask := map (Pandas.isin_scalar metrics) (Pandas.values sm)).
  assert (Hrows : Pandas.rows (Pandas.select_rows mask data)
                  = filter (Pandas.row_isin "metrics" metrics) (Pandas.rows data)).
  { rewrite PandasFacts.filter_select.
    rewrite (PandasFacts.rows_isin_mask data "metrics" sm metrics Hal Hget).
    apply PandasFacts.rows_select_rows.
    - intros ->. discriminate.
    - exact Hal.
    - unfold mask. rewrite length_map.
      apply (PandasFacts.aligned_column _ data "metrics" sm Hal Hget). }
  exists (Pandas.select_rows mask data).
  refine (conj _ (conj _ (conj _ (conj _ (conj Hrows _))))).
  - unfold filter_metrics, Pandera.check_input. rewrite Hvalid. cbn [bind].
    now apply FilterFacts.body_selects.
  - apply PandasFacts.columns_select_rows.
  - now rewrite PandasFacts.columns_select_rows.
  - now rewrite PandasFacts.columns_select_rows.
  - intros ->. rewrite Hrows. clear Hrows.
    induction (Pandas.rows data) as [|r rs IH]; [reflexivity|].
    simpl. unfold Pandas.row_isin at 1.
    destruct (PyDict.get r "metrics") as [[]|]; exact IH.
Qed.

(** The sample frame filtered by ["TEMPERATURE"] keeps its first row. *)
Lemma filter_metrics_keeps_listed_rows_witness :
  exists out,
    filter_metrics (time_series 1 2) ["TEMPERATURE"] = Ok out
    /\ Pandas.rows out = [ [ ("metrics", Pandas.SStr "TEMPERATURE");
                             ("timestamp", Pandas.SDatetime 1);
                             ("value", Pandas.SFloat one) ] ].
Proof.
  destruct (filter_metrics_keeps_listed_rows (time_series 1 2) ["TEMPERATURE"])
    as [out [Hcall [_ [_ [_ [Hrows _]]]]]].
  - simpl. intros [H|[H|[H|[]]]]; discriminate.
  - reflexivity.
  - reflexivity.
  - exists out. split; [exact Hcall|]. rewrite Hrows. reflexivity.
Defined.

(** The same for any two readings of the clock. *)
Example filter_metrics_time_series (t1 t2 : Z) :
  filter_metrics (time_series t1 t2) ["TEMPERATURE"]
  = Ok [ ("metrics", Pandas.ObjectSeries [Pandas.SStr "TEMPERATURE"]);
         ("timestamp", Pandas.Datetime64Series [Some t1]);
         ("value", Pandas.Float64Series [one]) ].
Proof. reflexivity. Qed.

(* ================================================================= *)
(** * Further properties *)

(** ** The name validator and the record dictionary *)

Module ValidatorFacts.
Import PyStr PyStrFacts.

Lemma split_from_nonempty_words (s word : string) :
  Forall (fun w => w <> "") (split_from word s).
Proof.
  revert word; induction s as [|c s IH]; simpl; intros word.
  - destruct word; simpl; [constructor|].
    constructor; [discriminate | constructor].
  - destruct (isspace c).
    + destruct word; simpl; [apply IH|].
      constructor; [discriminate | apply IH].
    + apply IH.
Qed.

Lemma split_from_empty (s word : string) :
  split_from word s = [] <-> word = "" /\ all_chars isspace s = true.
Proof.
  revert word; induction s as [|c s IH]; simpl; intros word.
  - destruct word; simpl; split; try tauto; try discriminate.
    intros [H _]. discriminate.
  - destruct (isspace c); simpl.
    + destruct word; simpl.
      * rewrite IH. tauto.
      * split; [discriminate | intros [H _]; discriminate].
    + rewrite IH. split; [|intros [_ H]; discriminate].
      intros [H _]. destruct word; discriminate.
Qed.

Lemma join_empty (sep : string) (ws : list string) :
  Forall (fun w => w <> "") ws -> join sep ws = "" -> ws = [].
Proof.
  intros Hws. destruct Hws as [|w ws Hw Hws]; [reflexivity|].
  destruct ws as [|w' ws]; simpl; intros E.
  - now contradiction Hw.
  - destruct w; [now contradiction Hw | discriminate].
Qed.

Lemma all_space_upper (s : string) :
  all_chars isspace (upper s) = all_chars isspace s.
Proof.
  induction s as [|c s IH]; simpl; [reflexivity|].
  now rewrite isspace_upper_char, IH.
Qed.

End ValidatorFacts.

(** X1. What the validator returns holds no whitespace and is unchanged
    by [upper()], and validating it again returns it unchanged. *)
Theorem validator_normal_form :
  forall (value : string),
    PyStr.all_chars PyStr.no_space (Metrics.upper value) = true
    /\ PyStr.upper (Metrics.upper value) = Metrics.upper value
    /\ PyStr.split (Metrics.upper value)
       = (if PyStr.is_empty (Metrics.upper value) then [] else [Metrics.upper value])
    /\ Metrics.upper (Metrics.upper value) = Metrics.upper value.
Proof.
  intros value.
  pose proof (MetricsFacts.validator_no_space value) as Hns.
  refine (conj Hns (conj _ (conj _ (MetricsFacts.validator_idem value)))).
  - apply PyStrFacts.upper_fixed, MetricsFacts.validator_is_upper.
  - unfold PyStr.split. now rewrite PyStrFacts.split_from_word by exact Hns.
Qed.

(** X2. The stored name is empty exactly when the name given consists of
    whitespace only (the empty name included). *)
Theorem validator_empty_iff_blank :
  forall (value : string),
    Metrics.upper value = "" <-> PyStr.all_chars PyStr.isspace value = true.
Proof.
  intros value. unfold Metrics.upper, PyStr.split.
  rewrite <- ValidatorFacts.all_space_upper. split.
  - intros E. apply ValidatorFacts.join_empty in E;
      [|apply ValidatorFacts.split_from_nonempty_words].
    now apply ValidatorFacts.split_from_empty in E.
  - intros H.
    assert (E : PyStr.split_from "" (PyStr.upper value) = [])
      by (apply ValidatorFacts.split_from_empty; now split).
    now rewrite E.
Qed.

(** X3. The dictionary of a record built by the constructor, unpacked into
    the constructor, gives the record back, with or without aggregation. *)
Theorem dict_constructor_round_trip :
  forall (name unit : string) (is_cumulative : bool) (aggregation : option Aggregation),
    let m := Metrics.init name unit is_cumulative aggregation in
    Metrics.new (Metrics.dict m) = Ok m
    /\ List.length (Metrics.dict m)
       = match aggregation with Some _ => 4 | None => 3 end.
Proof.
  intros name unit is_cumulative aggregation m. split.
  - destruct aggregation as [a|]; unfold Metrics.new; simpl;
      unfold Metrics.init; now rewrite MetricsFacts.validator_idem.
  - now destruct aggregation.
Qed.

(** X4. Deriving a record with an aggregation from the dictionary of
    another one succeeds exactly when the other one has no aggregation; it
    then keeps unit and cumulative flag, validates the name again and sets the
    aggregation.  Otherwise the keyword is given twice and the call raises
    [TypeError]. *)
Theorem derive_succeeds_iff_no_aggregation :
  forall (m : Metrics.t) (a : Aggregation),
    (Metrics.aggregation m = None ->
       Metrics.derive m a
       = Ok (Metrics.init (Metrics.name m) (Metrics.unit m)
                          (Metrics.is_cumulative m) (Some a)))
    /\ (Metrics.aggregation m <> None ->
          Metrics.derive m a
          = Raise (TypeError "got multiple values for keyword argument 'aggregation'"))
    /\ ((exists m', Metrics.derive m a = Ok m') <-> Metrics.aggregation m = None).
Proof.
  intros [n u c [b|]] a; simpl.
  - split; [discriminate|]. split; [reflexivity|].
    split; [intros [m' H]; discriminate | discriminate].
  - split; [reflexivity|]. split; [intros H; now contradiction H|].
    split; [reflexivity | intros _; eexists; reflexivity].
Qed.

Lemma derive_succeeds_iff_no_aggregation_witness :
  Metrics.derive RAIN_FALL SUM = Ok (Metrics.mk "RAIN_FALL" "C" true (Some SUM)).
Proof.
  exact (proj1 (derive_succeeds_iff_no_aggregation RAIN_FALL SUM) eq_refl).
Defined.

(** ** The mapping of a registry and the prefix dictionary *)

Module OrderFacts.

Lemma first_occurrences_length (xs seen : list string) :
  List.length (first_occurrences seen xs) <= List.length xs.
Proof.
  revert seen; induction xs as [|x xs IH]; intros seen; simpl; [lia|].
  destruct (PyStr.contains seen x); simpl.
  - specialize (IH seen). lia.
  - specialize (IH (seen ++ [x])%list). lia.
Qed.

Lemma first_occurrences_NoDup (xs seen : list string) :
  NoDup seen -> NoDup (seen ++ first_occurrences seen xs)%list.
Proof.
  revert seen; induction xs as [|x xs IH]; intros seen Hnd; simpl.
  - now rewrite app_nil_r.
  - destruct (PyStr.contains seen x) eqn:E; [now apply IH|].
    apply PyDictFacts.contains_false in E.
    change (x :: first_occurrences (seen ++ [x]) xs)%list
      with ([x] ++ first_occurrences (seen ++ [x]) xs)%list.
    rewrite app_assoc. apply IH.
    apply NoDup_app; [exact Hnd | repeat constructor; simpl; tauto |].
    intros y Hy [<-|[]]. now apply E.
Qed.

(** The names after inserting records, and the record found under a name. *)
Lemma fold_insert_names (metrics : list Metrics.t) (d : PyDict.dict Metrics.t) :
  PyDict.keys (fold_left MetricsRegistry.insert metrics d)
  = (PyDict.keys d
     ++ first_occurrences (PyDict.keys d) (map Metrics.full_name metrics))%list.
Proof.
  revert d; induction metrics as [|m metrics IH]; intros d; simpl.
  - now rewrite app_nil_r.
  - rewrite IH. unfold MetricsRegistry.insert at 1 2.
    rewrite PyDictFacts.keys_set. unfold PyDict.mem.
    destruct (PyStr.contains (PyDict.keys d) (Metrics.full_name m)); [reflexivity|].
    now rewrite <- app_assoc.
Qed.

Lemma fold_insert_get (metrics : list Metrics.t) (d : PyDict.dict Metrics.t) (k : string) :
  PyDict.get (fold_left MetricsRegistry.insert metrics d) k
  = match find_last (fun m => String.eqb (Metrics.full_name m) k) metrics with
    | Some m => Some m
    | None => PyDict.get d k
    end.
Proof.
  revert d; induction metrics as [|m metrics IH]; intros d; simpl; [reflexivity|].
  rewrite IH.
  destruct (find_last (fun m0 => String.eqb (Metrics.full_name m0) k) metrics);
    [reflexivity|].
  unfold MetricsRegistry.insert.
  destruct (String.eqb_spec (Metrics.full_name m) k) as [<-|Hne].
  - apply PyDictFacts.get_set_same.
  - apply PyDictFacts.get_set_other. congruence.
Qed.

(** The prefix dictionary after a run. *)
Lemma run_keys (cs : list construction) (cls : MetricsRegistry.prefixes) :
  PyDict.keys (run cs cls)
  = (PyDict.keys cls
     ++ first_occurrences (PyDict.keys cls) (map prefix_of cs))%list.
Proof.
  revert cls; induction cs as [|c cs IH]; intros cls; simpl.
  - now rewrite app_nil_r.
  - rewrite IH, PrefixFacts.construct_cases.
    unfold MetricsRegistry._get_prefixes.
    destruct (PyStr.contains (PyDict.keys cls) (prefix_of c)) eqn:E; simpl;
      [reflexivity|].
    unfold MetricsRegistry._add_prefix. rewrite PyDictFacts.keys_set.
    unfold PyDict.mem. rewrite E. now rewrite <- app_assoc.
Qed.

Lemma run_self_mapped (cs : list construction) (cls : MetricsRegistry.prefixes) :
  (forall k v, In (k, v) cls -> v = k) ->
  forall k v, In (k, v) (run cs cls) -> v = k.
Proof.
  revert cls; induction cs as [|c cs IH]; intros cls Hcls; simpl; [exact Hcls|].
  apply IH. rewrite PrefixFacts.construct_cases.
  destruct (PyStr.contains (MetricsRegistry._get_prefixes cls) (prefix_of c)); simpl;
    [exact Hcls|].
  intros k v Hin. apply PyDictFacts.In_set in Hin as [[-> ->]|Hin];
    [reflexivity | now apply Hcls].
Qed.

End OrderFacts.

(** X5. The mapping built from a list of metrics files, under each full
    name, the last metric of the list that has it; the names stand in the
    order of their first occurrence, without repetition, so there are at most
    as many as metrics were given. *)
Theorem by_full_name_last_wins :
  forall (metrics : list Metrics.t) (prefix : string) (k : string),
    let self := MetricsRegistry.mk (MetricsRegistry.by_full_name metrics) prefix in
    PyDict.get (MetricsRegistry._metrics self) k
    = find_last (fun m => String.eqb (Metrics.full_name m) k) metrics
    /\ MetricsRegistry.list_all_metrics_names self
       = first_occurrences [] (map Metrics.full_name metrics)
    /\ NoDup (MetricsRegistry.list_all_metrics_names self)
    /\ List.length (MetricsRegistry.list_all_metrics_names self)
       <= List.length metrics.
Proof.
  intros metrics prefix k self.
  assert (Hnames : MetricsRegistry.list_all_metrics_names self
                   = first_occurrences [] (map Metrics.full_name metrics)).
  { unfold self, MetricsRegistry.list_all_metrics_names, MetricsRegistry.by_full_name.
    simpl. now rewrite OrderFacts.fold_insert_names. }
  refine (conj _ (conj Hnames (conj _ _))).
  - unfold self, MetricsRegistry.by_full_name. simpl.
    rewrite OrderFacts.fold_insert_get. simpl.
    now destruct (find_last _ metrics).
  - rewrite Hnames.
    apply (OrderFacts.first_occurrences_NoDup (map Metrics.full_name metrics) []).
    constructor.
  - rewrite Hnames, <- (length_map Metrics.full_name metrics).
    apply OrderFacts.first_occurrences_length.
Qed.

(** X6. After any run of constructions from the empty class attribute, the
    prefix dictionary maps every prefix to itself, holds no prefix twice, and
    lists the prefixes that were asked for in the order in which they were
    first asked for. *)
Theorem prefix_dictionary_invariant :
  forall (cs : list construction),
    let cls := run cs MetricsRegistry.no_prefixes in
    (forall k v, In (k, v) cls -> v = k)
    /\ NoDup (PyDict.keys cls)
    /\ PyDict.keys cls = first_occurrences [] (map prefix_of cs)
    /\ List.length cls <= List.length cs.
Proof.
  intros cs cls.
  assert (Hkeys : PyDict.keys cls = first_occurrences [] (map prefix_of cs))
    by (unfold cls; now rewrite OrderFacts.run_keys).
  refine (conj _ (conj _ (conj Hkeys _))).
  - apply OrderFacts.run_self_mapped. intros k v [].
  - rewrite Hkeys.
    apply (OrderFacts.first_occurrences_NoDup (map prefix_of cs) []). constructor.
  - rewrite <- (length_map fst cls). fold (PyDict.keys cls). rewrite Hkeys.
    rewrite <- (length_map prefix_of cs). apply OrderFacts.first_occurrences_length.
Qed.

(** X7. In a process, a construction succeeds exactly when no earlier
    construction, successful or not, asked for its prefix; it then returns
    the registry of its metrics under that prefix and appends the prefix to
    the dictionary. *)
Theorem first_claimant_succeeds :
  forall (earlier : list construction) (c : construction),
    let cls := run earlier MetricsRegistry.no_prefixes in
    ((exists registry, fst (construct c cls) = Ok registry)
     <-> ~ exists c', In c' earlier /\ prefix_of c' = prefix_of c)
    /\ (forall registry, fst (construct c cls) = Ok registry ->
          registry = MetricsRegistry.mk
                       (MetricsRegistry.by_full_name (metrics_argument c)) (prefix_of c)
          /\ snd (construct c cls) = (cls ++ [(prefix_of c, prefix_of c)])%list).
Proof.
  intros earlier c cls.
  pose proof (PrefixFacts.run_from_start earlier (prefix_of c)) as Hused. fold cls in Hused.
  rewrite PrefixFacts.construct_cases.
  destruct (PyStr.contains (MetricsRegistry._get_prefixes cls) (prefix_of c)) eqn:E; simpl.
  - apply PyDictFacts.contains_In in E. split.
    + split; [intros [r H]; discriminate|]. intros H. contradiction H. now apply Hused.
    + intros r H. discriminate.
  - apply PyDictFacts.contains_false in E. split.
    + split; [|intros _; eexists; reflexivity].
      intros _ H. apply E. now apply Hused.
    + intros r [= <-]. split; [reflexivity|].
      unfold MetricsRegistry._add_prefix. now apply PyDictFacts.set_fresh.
Qed.

(** ** Filtering a registry, and lookups in the result *)

Module FilteringFacts.
Import MetricsRegistry.

Lemma by_full_name_well_keyed (metrics : list Metrics.t) :
  well_keyed (by_full_name metrics).
Proof.
  destruct (RegistryFacts.by_full_name_invariant metrics) as [H1 [H2 _]].
  now split.
Qed.

Lemma filter_well_keyed (f : string * Metrics.t -> bool) (d : PyDict.dict Metrics.t) :
  well_keyed d -> well_keyed (filter f d).
Proof.
  intros [Hnd Hk]. split.
  - now apply RegistryFacts.NoDup_keys_filter.
  - intros k m Hin. apply filter_In in Hin as [Hin _]. now apply Hk.
Qed.

Lemma rebuild_filter (f : string * Metrics.t -> bool) (d : PyDict.dict Metrics.t) :
  well_keyed d -> by_full_name (map snd (filter f d)) = filter f d.
Proof.
  intros Hd. destruct (filter_well_keyed f d Hd) as [Hnd Hk].
  unfold by_full_name. now rewrite RegistryFacts.fold_insert_append.
Qed.

Lemma generate_cases (self : t) (metrics : list string) (prefix : string)
    (cls : prefixes) :
  well_keyed (_metrics self) ->
  generate_registry_by_filtering self metrics prefix cls
  = if PyStr.contains (_get_prefixes cls) prefix
    then (Raise (ValueError (collision_message (Some prefix) cls)), cls)
    else (Ok (mk (filter (requested metrics) (_metrics self)) prefix),
          _add_prefix cls prefix).
Proof.
  intros Hd. unfold generate_registry_by_filtering.
  rewrite (PrefixFacts.init_prefix _ (Some prefix) cls).
  unfold PyDict.items. fold (requested metrics).
  now rewrite (rebuild_filter (requested metrics) (_metrics self) Hd).
Qed.

Lemma get_filter (V : Type) (f : string * V -> bool) (d : PyDict.dict V) (k : string) :
  NoDup (PyDict.keys d) ->
  PyDict.get (filter f d) k
  = match PyDict.get d k with
    | Some v => if f (k, v) then Some v else None
    | None => None
    end.
Proof.
  induction d as [|[k' v'] d IH]; simpl; intros Hnd; [reflexivity|].
  inversion Hnd as [|? ? Hk Hnd']; subst.
  destruct (String.eqb_spec k k') as [->|Hne].
  - destruct (f (k', v')) eqn:Ef; simpl.
    + now rewrite String.eqb_refl.
    + rewrite (IH Hnd').
      destruct (PyDict.get d k') as [v|] eqn:Eg; [|reflexivity].
      apply PyDictFacts.get_In in Eg. contradiction Hk.
      change (In (fst (k', v)) (map fst d)). now apply in_map.
  - destruct (f (k', v')); simpl; [|now apply IH].
    destruct (String.eqb_spec k k'); [contradiction | now apply IH].
Qed.

Lemma filter_filter (A : Type) (f g : A -> bool) (xs : list A) :
  filter g (filter f xs) = filter (fun x => f x && g x) xs.
Proof.
  induction xs as [|x xs IH]; simpl; [reflexivity|].
  destruct (f x); simpl; [destruct (g x)|]; now rewrite IH.
Qed.

End FilteringFacts.

(** X8. Filtering a registry and then filtering the result keeps the
    entries of the first registry that both lists request; with the same list
    twice the second registry has the mapping of the first. *)
Theorem filtering_twice_intersects :
  forall (source : list Metrics.t) (source_prefix : string)
         (first second : list string) (p1 p2 : string)
         (cls : MetricsRegistry.prefixes),
    ~ In p1 (MetricsRegistry._get_prefixes cls) ->
    ~ In p2 (MetricsRegistry._get_prefixes cls) ->
    p1 <> p2 ->
    let self := MetricsRegistry.mk (MetricsRegistry.by_full_name source) source_prefix in
    exists r1 r2 cls1 cls2,
      MetricsRegistry.generate_registry_by_filtering self first p1 cls = (Ok r1, cls1)
      /\ MetricsRegistry.generate_registry_by_filtering r1 second p2 cls1 = (Ok r2, cls2)
      /\ MetricsRegistry._metrics r2
         = filter (fun item => requested first item
                               && requested second item)
                  (MetricsRegistry._metrics self)
      /\ (second = first -> MetricsRegistry._metrics r2 = MetricsRegistry._metrics r1)
      /\ PyDict.keys cls2 = (PyDict.keys cls ++ [p1; p2])%list.
Proof.
  intros source source_prefix first second p1 p2 cls H1 H2 Hne self.
  pose proof (FilteringFacts.by_full_name_well_keyed source) as Hd.
  exists (MetricsRegistry.mk
            (filter (requested first) (MetricsRegistry._metrics self)) p1),
         (MetricsRegistry.mk
            (filter (requested second)
               (filter (requested first) (MetricsRegistry._metrics self))) p2),
         (MetricsRegistry._add_prefix cls p1),
         (MetricsRegistry._add_prefix (MetricsRegistry._add_prefix cls p1) p2).
  assert (H2' : ~ In p2 (MetricsRegistry._get_prefixes (MetricsRegistry._add_prefix cls p1))).
  { intros Hin. apply PyDictFacts.In_keys_set in Hin as [E|Hin];
      [now apply Hne | now apply H2]. }
  refine (conj _ (conj _ (conj _ (conj _ _)))).
  - rewrite FilteringFacts.generate_cases by exact Hd.
    apply PyDictFacts.contains_false in H1. now rewrite H1.
  - rewrite FilteringFacts.generate_cases
      by (simpl; now apply FilteringFacts.filter_well_keyed).
    apply PyDictFacts.contains_false in H2'. now rewrite H2'.
  - simpl. apply FilteringFacts.filter_filter.
  - intros ->. simpl. rewrite FilteringFacts.filter_filter.
    apply filter_ext. intros item.
    now destruct (requested first item).
  - unfold MetricsRegistry._add_prefix.
    rewrite !PyDictFacts.set_fresh; [| exact H1 | exact H2'].
    unfold PyDict.keys. rewrite !map_app, <- app_assoc. reflexivity.
Qed.

Lemma filtering_twice_intersects_witness :
  exists r1 r2 cls1 cls2,
    MetricsRegistry.generate_registry_by_filtering METRICS_AND_AGGREGATION_REGISTRY
      ["temperature_min"; "temperature_max"] "Partial"
      [("", ""); ("Aggregated", "Aggregated")] = (Ok r1, cls1)
    /\ MetricsRegistry.generate_registry_by_filtering r1
         ["TEMPERATURE_MAX"; "TEMPERATURE_LAST"] "Narrow" cls1 = (Ok r2, cls2)
    /\ MetricsRegistry.list_all_metrics_names r2 = ["TEMPERATURE_MAX"].
Proof.
  destruct (filtering_twice_intersects
              [ Metrics.init "temperature" "C" false (Some MIN);
                Metrics.init "temperature" "C" false (Some MAX);
                Metrics.init "temperature" "C" false (Some MEAN);
                Metrics.init "temperature" "C" false (Some LAST) ]
              "Aggregated" ["temperature_min"; "temperature_max"]
              ["TEMPERATURE_MAX"; "TEMPERATURE_LAST"] "Partial" "Narrow"
              [("", ""); ("Aggregated", "Aggregated")])
    as [r1 [r2 [cls1 [cls2 [E1 [E2 [Hm _]]]]]]].
  - simpl. intros [H|[H|[]]]; discriminate.
  - simpl. intros [H|[H|[]]]; discriminate.
  - discriminate.
  - exists r1, r2, cls1, cls2. split; [exact E1|]. split; [exact E2|].
    unfold MetricsRegistry.list_all_metrics_names. rewrite Hm. reflexivity.
Defined.

(** X9. The result of filtering depends on the requested names only
    through the set of their upper-case forms: order, repetition and case of
    the requests change neither the outcome nor the class attribute. *)
Theorem filtering_ignores_request_layout :
  forall (self : MetricsRegistry.t) (first second : list string)
         (prefix : string) (cls : MetricsRegistry.prefixes),
    (forall name, In name (map PyStr.upper first) <-> In name (map PyStr.upper second)) ->
    MetricsRegistry.generate_registry_by_filtering self first prefix cls
    = MetricsRegistry.generate_registry_by_filtering self second prefix cls.
Proof.
  intros self first second prefix cls H.
  unfold MetricsRegistry.generate_registry_by_filtering.
  f_equal. f_equal. apply filter_ext. intros item.
  destruct (PyStr.contains (map PyStr.upper second) (fst item)) eqn:E.
  - apply PyDictFacts.contains_In. apply H. now apply PyDictFacts.contains_In.
  - apply PyDictFacts.contains_false. intros Hin. apply H in Hin.
    apply PyDictFacts.contains_In in Hin. congruence.
Qed.

Lemma filtering_ignores_request_layout_witness :
  MetricsRegistry.generate_registry_by_filtering METRICS_AND_AGGREGATION_REGISTRY
    ["temperature_min"; "TEMPERATURE_MAX"] "Partial" [("", "")]
  = MetricsRegistry.generate_registry_by_filtering METRICS_AND_AGGREGATION_REGISTRY
      ["Temperature_Max"; "TEMPERATURE_MIN"; "temperature_max"] "Partial" [("", "")].
Proof.
  apply (filtering_ignores_request_layout METRICS_AND_AGGREGATION_REGISTRY
           ["temperature_min"; "TEMPERATURE_MAX"]
           ["Temperature_Max"; "TEMPERATURE_MIN"; "temperature_max"]).
  intros name. simpl. tauto.
Defined.

(** X10. In a registry obtained by filtering, a lookup gives what the
    source registry gives when the upper-cased name is among the upper-cased
    requests, and raises [KeyError] otherwise, also for names the source
    knows. *)
Theorem lookup_after_filtering :
  forall (source : list Metrics.t) (source_prefix : string)
         (requests : list string) (prefix : string)
         (cls cls' : MetricsRegistry.prefixes) (new : MetricsRegistry.t),
    let self := MetricsRegistry.mk (MetricsRegistry.by_full_name source) source_prefix in
    MetricsRegistry.generate_registry_by_filtering self requests prefix cls = (Ok new, cls') ->
    forall full_name,
      MetricsRegistry.get_metrics_by_full_name new full_name
      = if PyStr.contains (map PyStr.upper requests) (PyStr.upper full_name)
        then MetricsRegistry.get_metrics_by_full_name self full_name
        else Raise (KeyError (PyStr.upper full_name)).
Proof.
  intros source source_prefix requests prefix cls cls' new self Hgen full_name.
  pose proof (FilteringFacts.by_full_name_well_keyed source) as Hd.
  rewrite FilteringFacts.generate_cases in Hgen by exact Hd.
  destruct (PyStr.contains (MetricsRegistry._get_prefixes cls) prefix); [discriminate|].
  injection Hgen as <- _.
  unfold MetricsRegistry.get_metrics_by_full_name. simpl.
  rewrite FilteringFacts.get_filter by apply Hd.
  unfold requested. simpl.
  destruct (PyDict.get (MetricsRegistry.by_full_name source) (PyStr.upper full_name));
    now destruct (PyStr.contains (map PyStr.upper requests) (PyStr.upper full_name)).
Qed.

Lemma lookup_after_filtering_witness :
  MetricsRegistry.get_metrics_by_full_name PARTIAL_METRICS_REGISTRY "temperature_mean"
  = Raise (KeyError "TEMPERATURE_MEAN").
Proof.
  exact (lookup_after_filtering
           [ Metrics.init "temperature" "C" false (Some MIN);
             Metrics.init "temperature" "C" false (Some MAX);
             Metrics.init "temperature" "C" false (Some MEAN);
             Metrics.init "temperature" "C" false (Some LAST) ]
           "Aggregated" ["TEMPERATURE_MIN"; "TEMPERATURE_MAX"] "Partial"
           [("", ""); ("Aggregated", "Aggregated")] _ PARTIAL_METRICS_REGISTRY
           eq_refl "temperature_mean").
Defined.

(** ** Enumerations and the handlers of [main.py] *)

Module HandlerFacts.

(** Every name a registry built from constructed metrics hands to [Enum]
    resolves in that registry. *)
Lemma member_resolves (metrics : list Metrics.t) (prefix : string)
    (member : string * string) :
  Forall Metrics.constructed metrics ->
  let self := MetricsRegistry.mk (MetricsRegistry.by_full_name metrics) prefix in
  In member (MetricsRegistry.enum_names self) ->
  exists m,
    MetricsRegistry.get_metrics_by_full_name self (member_name member) = Ok m
    /\ Metrics.full_name m = member_name member
    /\ In m metrics.
Proof.
  intros Hc self Hin.
  unfold MetricsRegistry.enum_names in Hin. simpl in Hin.
  apply in_map_iff in Hin as [k [<- Hk]]. unfold member_name. simpl.
  destruct (RegistryFacts.by_full_name_invariant metrics) as [Hnd [Hkeyed Hfrom]].
  destruct (PyDict.get (MetricsRegistry.by_full_name metrics) k) as [m|] eqn:Eg.
  2:{ apply PyDictFacts.get_None in Eg. now contradiction Eg. }
  pose proof (PyDictFacts.get_In _ _ _ _ Eg) as Hm.
  pose proof (Hkeyed k m Hm) as Ek. pose proof (Hfrom k m Hm) as Hmem.
  assert (Hup : PyStr.upper k = k).
  { rewrite Ek. apply MetricsFacts.full_name_upper.
    rewrite Forall_forall in Hc. now apply Hc. }
  exists m. unfold MetricsRegistry.get_metrics_by_full_name. simpl.
  rewrite Hup, Eg. auto.
Qed.

Lemma traverse_resolves {A B : Type} (f : A -> result B) (p : A -> B -> Prop)
    (xs : list A) :
  (forall x, In x xs -> exists y, f x = Ok y /\ p x y) ->
  exists ys, traverse f xs = Ok ys /\ Forall2 p xs ys.
Proof.
  induction xs as [|x xs IH]; simpl; intros H.
  - exists []. split; [reflexivity | constructor].
  - destruct (H x (or_introl eq_refl)) as [y [Ey Hy]].
    destruct IH as [ys [Eys Hys]]; [intros z Hz; apply H; now right|].
    exists (y :: ys). rewrite Ey. simpl. rewrite Eys. simpl.
    split; [reflexivity | now constructor].
Qed.

Lemma traverse_raises {A B : Type} (f : A -> result B)
    (before after : list A) (x : A) (e : exn) :
  (forall y, In y before -> exists v, f y = Ok v) -> f x = Raise e ->
  traverse f (before ++ x :: after)%list = Raise e.
Proof.
  induction before as [|y before IH]; simpl; intros H Hx.
  - now rewrite Hx.
  - destruct (H y (or_introl eq_refl)) as [v Ev]. rewrite Ev. simpl.
    rewrite IH; [reflexivity | intros z Hz; apply H; now right | exact Hx].
Qed.

Lemma Forall2_names (members : list (string * string)) (found : list Metrics.t) :
  Forall2 (fun member m => Metrics.full_name m = member_name member) members found ->
  map Metrics.full_name found = map member_name members.
Proof. induction 1 as [|x y xs ys E _ IH]; simpl; [reflexivity | now rewrite E, IH]. Qed.

End HandlerFacts.

(** X11. The members of the enumeration of a registry are among the
    (name, name) pairs the registry hands to [Enum].  For a registry built
    from constructed metrics, looking up the names of any of these pairs, in
    particular of any members of its own enumeration, one after the other,
    raises nothing: it returns one metric per member, in order, each with the
    member's name as full name and each among the metrics the registry was
    built from. *)
Theorem enumeration_members_resolve :
  forall (metrics : list Metrics.t) (prefix : string)
         (members : list (string * string)),
    Forall Metrics.constructed metrics ->
    let self := MetricsRegistry.mk (MetricsRegistry.by_full_name metrics) prefix in
    (forall member, In member members ->
       In member (MetricsRegistry.enum_names self)) ->
    (exists found,
       traverse (fun member =>
                   MetricsRegistry.get_metrics_by_full_name self (member_name member))
                members = Ok found
       /\ map Metrics.full_name found = map member_name members
       /\ Forall (fun m => In m metrics) found)
    /\ (forall enum,
          MetricsRegistry.get_enum_from_metrics self = Ok enum ->
          incl (Enum.members enum) (MetricsRegistry.enum_names self)).
Proof.
  intros metrics prefix members Hc self Hmem. split.
  - destruct (HandlerFacts.traverse_resolves
                (fun member => MetricsRegistry.get_metrics_by_full_name self (member_name member))
                (fun member m => Metrics.full_name m = member_name member /\ In m metrics)
                members) as [found [E H]].
    + intros member Hin.
      destruct (HandlerFacts.member_resolves metrics prefix member Hc (Hmem member Hin))
        as [m [E1 [E2 E3]]].
      now exists m.
    + exists found. split; [exact E|]. split.
      * apply HandlerFacts.Forall2_names.
        eapply Forall2_impl; [|exact H]. intros a b [Hab _]. exact Hab.
      * clear E Hmem. induction H as [|x y xs ys [_ Hy] _ IH]; constructor; assumption.
  - intros enum E. now apply EnumFacts.create_Ok in E as [_ E].
Qed.

Lemma enumeration_members_resolve_witness :
  exists found,
    traverse (fun member =>
                MetricsRegistry.get_metrics_by_full_name MAIN_METRICS_REGISTRY
                  (member_name member))
             [("RAIN_FALL", "RAIN_FALL"); ("TEMPERATURE", "TEMPERATURE")] = Ok found
    /\ map Metrics.full_name found = ["RAIN_FALL"; "TEMPERATURE"].
Proof.
  destruct (enumeration_members_resolve [TEMPERATURE; RAIN_FALL; WIND_SPEED_2M] ""
              [("RAIN_FALL", "RAIN_FALL"); ("TEMPERATURE", "TEMPERATURE")])
    as [[found [E [Hn _]]] _].
  - repeat constructor; unfold Metrics.constructed, TEMPERATURE, RAIN_FALL, WIND_SPEED_2M;
      eauto.
  - simpl. intros member [<-|[<-|[]]]; tauto.
  - exists found. split; [exact E | exact Hn].
Defined.

(** X12. The enumeration of the partial registry is created and its
    members are the (name, name) pairs of the registry's names.  The handler
    of "/partial" answers a list of these members with the metrics of these
    names, in order; given a name the partial registry does not hold after
    members it does hold, it raises [KeyError] with the upper-cased name. *)
Theorem get_from_partial_answers_members :
  forall (metrics : list (string * string)),
    ((forall member, In member metrics ->
        In member (MetricsRegistry.enum_names PARTIAL_METRICS_REGISTRY)) ->
     exists found,
       get_from_partial metrics = Ok found
       /\ map Metrics.full_name found = map member_name metrics)
    /\ (forall before stranger after,
          metrics = (before ++ stranger :: after)%list ->
          (forall member, In member before ->
             In member (MetricsRegistry.enum_names PARTIAL_METRICS_REGISTRY)) ->
          ~ In (PyStr.upper (member_name stranger))
               (MetricsRegistry.list_all_metrics_names PARTIAL_METRICS_REGISTRY) ->
          get_from_partial metrics
          = Raise (KeyError (PyStr.upper (member_name stranger))))
    /\ MetricsRegistry.get_enum_from_metrics PARTIAL_METRICS_REGISTRY
       = Ok (Enum.mk "PartialMetrics"
               (MetricsRegistry.enum_names PARTIAL_METRICS_REGISTRY)).
Proof.
  intros metrics.
  assert (Hc : Forall Metrics.constructed
                 [ Metrics.init "temperature" "C" false (Some MIN);
                   Metrics.init "temperature" "C" false (Some MAX) ])
    by (repeat constructor; unfold Metrics.constructed; eauto).
  split.
  - intros Hmem.
    destruct (HandlerFacts.traverse_resolves
                (fun member => MetricsRegistry.get_metrics_by_full_name
                                 PARTIAL_METRICS_REGISTRY (member_name member))
                (fun member m => Metrics.full_name m = member_name member)
                metrics) as [found [E H]].
    + intros member Hin.
      destruct (HandlerFacts.member_resolves _ "Partial" member Hc (Hmem member Hin))
        as [m [E1 [E2 _]]].
      now exists m.
    + exists found. split; [exact E | now apply HandlerFacts.Forall2_names].
  - split; [|reflexivity].
    intros before stranger after -> Hmem Hno. unfold get_from_partial.
    apply HandlerFacts.traverse_raises.
    + intros member Hin.
      destruct (HandlerFacts.member_resolves _ "Partial" member Hc (Hmem member Hin))
        as [m [E1 _]].
      now exists m.
    + unfold MetricsRegistry.get_metrics_by_full_name.
      unfold MetricsRegistry.list_all_metrics_names in Hno.
      apply PyDictFacts.get_None in Hno. now rewrite Hno.
Qed.

Lemma get_from_partial_answers_members_witness :
  exists found,
    get_from_partial [("TEMPERATURE_MAX", "TEMPERATURE_MAX")] = Ok found
    /\ map Metrics.full_name found = ["TEMPERATURE_MAX"].
Proof.
  apply (proj1 (get_from_partial_answers_members [("TEMPERATURE_MAX", "TEMPERATURE_MAX")])).
  simpl. intros member [<-|[]]. tauto.
Defined.

(** The module-level call of [main.py] binds the partial registry. *)
Example PARTIAL_METRICS_REGISTRY_value :
  PARTIAL_METRICS_REGISTRY_call [("", ""); ("Aggregated", "Aggregated")]
  = (Ok PARTIAL_METRICS_REGISTRY,
     [("", ""); ("Aggregated", "Aggregated"); ("Partial", "Partial")])
  /\ METRICS_AND_AGGREGATION_REGISTRY_call [("", "")]
     = (Ok METRICS_AND_AGGREGATION_REGISTRY, [("", ""); ("Aggregated", "Aggregated")]).
Proof. split; reflexivity. Qed.

(** ** The filter on frames *)

Module FrameFacts.
Import Pandas Pandera.

Section Removal.
Variable V : Type.
Implicit Types (d : PyDict.dict V) (k : string) (v : V).

Lemma remove_set_same d k v : PyDict.remove (PyDict.set d k v) k = PyDict.remove d k.
Proof.
  induction d as [|[k' v'] d IH]; simpl.
  - now rewrite String.eqb_refl.
  - destruct (String.eqb_spec k k') as [->|Hne]; simpl.
    + now rewrite String.eqb_refl.
    + destruct (String.eqb_spec k k'); [contradiction | now rewrite IH].
Qed.

Lemma remove_absent d k : ~ In k (PyDict.keys d) -> PyDict.remove d k = d.
Proof.
  induction d as [|[k' v'] d IH]; simpl; [reflexivity|].
  intros H. destruct (String.eqb_spec k k') as [->|Hne].
  - contradiction H. now left.
  - rewrite IH; [reflexivity | tauto].
Qed.

Lemma get_remove_other d k k' : k' <> k -> PyDict.get (PyDict.remove d k) k' = PyDict.get d k'.
Proof.
  intros Hne. induction d as [|[k0 v0] d IH]; simpl; [reflexivity|].
  destruct (String.eqb_spec k k0) as [->|Hk]; simpl.
  - destruct (String.eqb_spec k' k0); [contradiction | reflexivity].
  - now rewrite IH.
Qed.

Lemma keys_remove d k :
  NoDup (PyDict.keys d) ->
  PyDict.keys (PyDict.remove d k)
  = filter (fun k' => negb (String.eqb k k')) (PyDict.keys d).
Proof.
  induction d as [|[k' v'] d IH]; simpl; intros Hnd; [reflexivity|].
  inversion Hnd as [|? ? Hk Hnd']; subst.
  destruct (String.eqb_spec k k') as [->|Hne]; simpl.
  - symmetry. apply forallb_filter_id. apply forallb_forall.
    intros x Hx. destruct (String.eqb_spec k' x) as [<-|_]; [contradiction | reflexivity].
  - f_equal. now apply IH.
Qed.
End Removal.

Lemma select_nil (A : Type) (mask : list bool) : select mask (@nil A) = [].
Proof. now destruct mask as [|[] mask]. Qed.

Lemma select_rows_remove (mask : list bool) (df : DataFrame) (name : string) :
  select_rows mask (PyDict.remove df name) = PyDict.remove (select_rows mask df) name.
Proof.
  induction df as [|[k s] df IH]; simpl; [reflexivity|].
  destruct (String.eqb name k); simpl; [reflexivity | now rewrite IH].
Qed.

Lemma get_select_rows (mask : list bool) (df : DataFrame) (name : string) :
  PyDict.get (select_rows mask df) name
  = option_map (select_series mask) (PyDict.get df name).
Proof.
  induction df as [|[k s] df IH]; simpl; [reflexivity|].
  destruct (String.eqb name k); [reflexivity | exact IH].
Qed.

Lemma forallb_select (A : Type) (p : A -> bool) (mask : list bool) (xs : list A) :
  forallb p xs = true -> forallb p (select mask xs) = true.
Proof.
  revert xs; induction mask as [|b mask IH]; intros [|x xs]; simpl; try reflexivity.
  intros [Hx Hxs]%andb_prop. destruct b; simpl; [rewrite Hx; simpl|]; now apply IH.
Qed.

(** Selecting among selected entries is selecting by both tests. *)
Lemma select_select (A B : Type) (p q : A -> bool) (xs : list A) (ys : list B) :
  select (map q (select (map p xs) xs)) (select (map p xs) ys)
  = select (map (fun x => p x && q x) xs) ys.
Proof.
  revert ys; induction xs as [|x xs IH]; intros [|y ys]; simpl; try reflexivity.
  - apply select_nil.
  - destruct (p x); simpl; [destruct (q x)|]; now rewrite IH.
Qed.

Lemma select_all (A : Type) (mask : list bool) (xs : list A) :
  forallb (fun b => b) mask = true -> List.length xs <= List.length mask ->
  select mask xs = xs.
Proof.
  revert xs; induction mask as [|b mask IH]; intros [|x xs]; simpl;
    try reflexivity; try lia.
  intros [-> Hm]%andb_prop Hlen. rewrite IH; [reflexivity | exact Hm | lia].
Qed.

Lemma check_dtype_select (d : dtype) (mask : list bool) (s : Series) :
  check_dtype d s = true -> check_dtype d (select_series mask s) = true.
Proof.
  destruct d, s; simpl; try discriminate; apply forallb_select.
Qed.

(** The body of the filter, in general: the helper column is taken out, also
    when the frame came with a column of that name, and the rows are
    selected by the mask. *)
Lemma body_result (data : DataFrame) (metrics : list string) (sm : Series) :
  PyDict.get data "metrics" = Some sm ->
  filter_metrics_body data metrics
  = Ok (select_rows (map (isin_scalar metrics) (values sm))
                    (PyDict.remove data "is_in_metrics")).
Proof.
  intros Hget. rewrite (FilterFacts.body_returns data metrics sm Hget). f_equal.
  now rewrite <- select_rows_remove, remove_set_same.
Qed.

Lemma filter_metrics_result (data : DataFrame) (metrics : list string) :
  conforms data ->
  exists sm,
    PyDict.get data "metrics" = Some sm
    /\ forallb (isin_scalar known_names) (values sm) = true
    /\ filter_metrics data metrics
       = Ok (select_rows (map (isin_scalar metrics) (values sm))
                         (PyDict.remove data "is_in_metrics")).
Proof.
  intros Hc. destruct (FilterFacts.validate_cases data) as [[Hv _]|[column [_ Hn]]];
    [|now contradiction Hn].
  destruct Hc as [sm [st [sv [Em [_ [Im _]]]]]].
  exists sm. split; [exact Em|]. split; [exact Im|].
  unfold filter_metrics, check_input. rewrite Hv. cbn [bind].
  now apply body_result.
Qed.

Lemma filter_metrics_Ok_conforms (data out : DataFrame) (metrics : list string) :
  filter_metrics data metrics = Ok out -> conforms data.
Proof.
  intros H. destruct (FilterFacts.validate_cases data) as [[_ Hc]|[column [Hv _]]];
    [exact Hc|].
  unfold filter_metrics, check_input in H. rewrite Hv in H. discriminate.
Qed.

Lemma conforms_validate (data : DataFrame) :
  conforms data -> validate Timeseries data = Ok data.
Proof.
  intros Hc. destruct (FilterFacts.validate_cases data) as [[Hv _]|[column [_ Hn]]];
    [exact Hv | now contradiction Hn].
Qed.

(** A selection of the rows of a frame that conforms, without the helper
    column, conforms. *)
Lemma conforms_select (data : DataFrame) (mask : list bool) :
  conforms data ->
  conforms (select_rows mask (PyDict.remove data "is_in_metrics")).
Proof.
  intros [sm [st [sv [Em [Cm [Im [Et [Ct [Ev Cv]]]]]]]]].
  exists (select_series mask sm), (select_series mask st), (select_series mask sv).
  rewrite !get_select_rows, !get_remove_other, Em, Et, Ev by discriminate.
  repeat split; try reflexivity; try now apply check_dtype_select.
  rewrite PandasFacts.values_select. now apply forallb_select.
Qed.

Lemma isin_both (first second : list string) (x : scalar) :
  isin_scalar first x && isin_scalar second x
  = isin_scalar (filter (PyStr.contains second) first) x.
Proof.
  destruct x; try reflexivity. simpl.
  destruct (PyStr.contains (filter (PyStr.contains second) first) s) eqn:E.
  - apply PyDictFacts.contains_In in E. apply filter_In in E as [H1 H2].
    apply PyDictFacts.contains_In in H1. now rewrite H1, H2.
  - destruct (PyStr.contains first s) eqn:E1; [|reflexivity].
    destruct (PyStr.contains second s) eqn:E2; [|reflexivity].
    apply PyDictFacts.contains_false in E. contradiction E.
    apply filter_In. split; [now apply PyDictFacts.contains_In | exact E2].
Qed.

Lemma select_series_twice (p q : scalar -> bool) (sm s : Series) :
  select_series (map q (select (map p (values sm)) (values sm)))
                (select_series (map p (values sm)) s)
  = select_series (map (fun x => p x && q x) (values sm)) s.
Proof. destruct s; simpl; now rewrite select_select. Qed.

Lemma select_series_all (mask : list bool) (s : Series) :
  forallb (fun b => b) mask = true -> length s <= List.length mask ->
  select_series mask s = s.
Proof.
  unfold length. intros Hm Hlen.
  destruct s; simpl in *; rewrite length_map in Hlen || idtac;
    now rewrite select_all.
Qed.

End FrameFacts.

(** X13. What the filter returns passes the schema again, so the filter
    can be applied to its own result; the result has no helper column when
    the column names of the input are distinct. *)
Theorem filter_result_passes_schema :
  forall (data out : Pandas.DataFrame) (metrics : list string),
    filter_metrics data metrics = Ok out ->
    Pandera.validate Timeseries out = Ok out
    /\ (forall again, exists out', filter_metrics out again = Ok out')
    /\ (NoDup (Pandas.columns data) -> ~ In "is_in_metrics" (Pandas.columns out)).
Proof.
  intros data out metrics H.
  pose proof (FrameFacts.filter_metrics_Ok_conforms data out metrics H) as Hc.
  destruct (FrameFacts.filter_metrics_result data metrics Hc) as [sm [_ [_ E]]].
  rewrite E in H. injection H as <-.
  pose proof (FrameFacts.conforms_select data (map (Pandas.isin_scalar metrics) (Pandas.values sm)) Hc)
    as Hout.
  refine (conj (FrameFacts.conforms_validate _ Hout) (conj _ _)).
  - intros again.
    destruct (FrameFacts.filter_metrics_result _ again Hout) as [sm' [_ [_ E']]].
    eexists. exact E'.
  - intros Hnd. rewrite PandasFacts.columns_select_rows.
    unfold Pandas.columns. rewrite FrameFacts.keys_remove by exact Hnd.
    intros Hin. apply filter_In in Hin as [_ Hin].
    rewrite String.eqb_refl in Hin. discriminate.
Qed.

Lemma filter_result_passes_schema_witness :
  Pandera.validate Timeseries
    [ ("metrics", Pandas.ObjectSeries [Pandas.SStr "TEMPERATURE"]);
      ("timestamp", Pandas.Datetime64Series [Some 1%Z]);
      ("value", Pandas.Float64Series [one]) ]
  = Ok [ ("metrics", Pandas.ObjectSeries [Pandas.SStr "TEMPERATURE"]);
         ("timestamp", Pandas.Datetime64Series [Some 1%Z]);
         ("value", Pandas.Float64Series [one]) ].
Proof.
  exact (proj1 (filter_result_passes_schema (time_series 1 2) _ ["TEMPERATURE"] eq_refl)).
Defined.

(** X14. Filtering the result of a filter by a second list is filtering the
    input once by the names of the first list that are in the second; with
    the same list twice nothing changes any more. *)
Theorem filter_twice_intersects :
  forall (data out : Pandas.DataFrame) (first second : list string),
    NoDup (Pandas.columns data) ->
    filter_metrics data first = Ok out ->
    filter_metrics out second
    = filter_metrics data (filter (PyStr.contains second) first)
    /\ filter_metrics out first = Ok out.
Proof.
  intros data out first second Hnd H.
  pose proof (FrameFacts.filter_metrics_Ok_conforms data out first H) as Hc.
  destruct (FrameFacts.filter_metrics_result data first Hc) as [sm [Em [_ E]]].
  rewrite E in H. injection H as <-.
  set (D := PyDict.remove data "is_in_metrics").
  set (m1 := map (Pandas.isin_scalar first) (Pandas.values sm)).
  assert (Hfresh : ~ In "is_in_metrics" (PyDict.keys D)).
  { unfold D. rewrite FrameFacts.keys_remove by exact Hnd.
    intros Hin. apply filter_In in Hin as [_ Hin].
    rewrite String.eqb_refl in Hin. discriminate. }
  assert (Hget : PyDict.get (Pandas.select_rows m1 D) "metrics"
                 = Some (Pandas.select_series m1 sm)).
  { rewrite FrameFacts.get_select_rows. unfold D.
    rewrite FrameFacts.get_remove_other by discriminate. now rewrite Em. }
  assert (Hagain : forall again,
            filter_metrics (Pandas.select_rows m1 D) again
            = Ok (Pandas.select_rows
                    (map (fun x => Pandas.isin_scalar first x && Pandas.isin_scalar again x)
                         (Pandas.values sm)) D)).
  { intros again.
    destruct (FrameFacts.filter_metrics_result (Pandas.select_rows m1 D) again
                (FrameFacts.conforms_select data m1 Hc)) as [sm' [Em' [_ E']]].
    rewrite Hget in Em'. injection Em' as <-. rewrite E'. f_equal.
    rewrite FrameFacts.remove_absent
      by (fold (Pandas.columns (Pandas.select_rows m1 D));
          now rewrite PandasFacts.columns_select_rows).
    rewrite PandasFacts.values_select. unfold Pandas.select_rows.
    rewrite map_map. apply map_ext. intros [k s]. simpl. f_equal.
    unfold m1. apply FrameFacts.select_series_twice. }
  split.
  - rewrite Hagain.
    destruct (FrameFacts.filter_metrics_result data (filter (PyStr.contains second) first) Hc)
      as [sm' [Em' [_ E']]].
    rewrite Em in Em'. injection Em' as <-. rewrite E'. fold D. f_equal. f_equal.
    apply map_ext. intros x. apply FrameFacts.isin_both.
  - rewrite Hagain. f_equal. f_equal. unfold m1. apply map_ext. intros x.
    now destruct (Pandas.isin_scalar first x).
Qed.

Lemma filter_twice_intersects_witness :
  filter_metrics
    [ ("metrics", Pandas.ObjectSeries [Pandas.SStr "TEMPERATURE"; Pandas.SStr "RAIN_FALL"]);
      ("timestamp", Pandas.Datetime64Series [Some 1%Z; Some 2%Z]);
      ("value", Pandas.Float64Series [one; one]) ]
    ["RAIN_FALL"]
  = filter_metrics (time_series 1 2)
      (filter (PyStr.contains ["RAIN_FALL"]) ["TEMPERATURE"; "RAIN_FALL"]).
Proof.
  refine (proj1 (filter_twice_intersects (time_series 1 2) _
                   ["TEMPERATURE"; "RAIN_FALL"] ["RAIN_FALL"] _ eq_refl)).
  repeat constructor; simpl; intros H; repeat destruct H as [H|H]; discriminate || exact H.
Defined.

(** X15. A list that holds every full name of the main registry filters
    nothing out: a frame that passes the schema, with columns of one length
    and no helper column, comes back as it is. *)
Theorem filter_by_all_names_is_identity :
  forall (data : Pandas.DataFrame) (metrics : list string),
    Pandera.validate Timeseries data = Ok data ->
    Pandas.aligned (Pandas.nrows data) data = true ->
    ~ In "is_in_metrics" (Pandas.columns data) ->
    (forall name, In name known_names -> In name metrics) ->
    filter_metrics data metrics = Ok data.
Proof.
  intros data metrics Hv Hal Hfresh Hall.
  destruct (FilterFacts.validate_cases data) as [[_ Hc]|[column [Hv' _]]]; [|congruence].
  destruct (FrameFacts.filter_metrics_result data metrics Hc) as [sm [Em [Im E]]].
  rewrite E. f_equal. rewrite FrameFacts.remove_absent by exact Hfresh.
  set (mask := map (Pandas.isin_scalar metrics) (Pandas.values sm)).
  assert (Hmask : forallb (fun b => b) mask = true).
  { unfold mask. rewrite forallb_forall. intros b Hb.
    apply in_map_iff in Hb as [x [<- Hx]].
    rewrite forallb_forall in Im. specialize (Im x Hx).
    destruct x; try discriminate. cbn [Pandas.isin_scalar] in *.
    apply PyDictFacts.contains_In. apply Hall. now apply PyDictFacts.contains_In. }
  assert (Hlen : List.length mask = Pandas.nrows data).
  { unfold mask. rewrite length_map.
    apply (PandasFacts.aligned_column _ data "metrics" sm Hal Em). }
  unfold Pandas.select_rows. rewrite <- (map_id data) at 2.
  apply map_ext_in. intros [k s] Hin. simpl. f_equal.
  apply FrameFacts.select_series_all; [exact Hmask|].
  unfold Pandas.aligned in Hal. rewrite forallb_forall in Hal.
  specialize (Hal _ Hin). apply Nat.eqb_eq in Hal. simpl in Hal. lia.
Qed.

Lemma filter_by_all_names_is_identity_witness :
  filter_metrics (time_series 1 2) ["WIND_SPEED_AT_2M"; "RAIN_FALL"; "TEMPERATURE"; "OTHER"]
  = Ok (time_series 1 2).
Proof.
  apply (filter_by_all_names_is_identity (time_series 1 2)).
  - reflexivity.
  - reflexivity.
  - simpl. intros [H|[H|[H|[]]]]; discriminate.
  - simpl. intros name [<-|[<-|[<-|[]]]]; tauto.
Defined.

(** X16. The outcome of the filter depends on the list of the caller only
    through the full names of the main registry in it: two lists that hold
    the same ones give the same frame, or the same error. *)
Theorem filter_depends_on_known_names :
  forall (data : Pandas.DataFrame) (first second : list string),
    (forall name, In name known_names ->
       PyStr.contains first name = PyStr.contains second name) ->
    filter_metrics data first = filter_metrics data second.
Proof.
  intros data first second H.
  destruct (FilterFacts.validate_cases data) as [[_ Hc]|[column [Hv _]]].
  - destruct (FrameFacts.filter_metrics_result data first Hc) as [sm [Em [Im E1]]].
    destruct (FrameFacts.filter_metrics_result data second Hc) as [sm' [Em' [_ E2]]].
    rewrite Em in Em'. injection Em' as <-. rewrite E1, E2. f_equal. f_equal.
    apply map_ext_in. intros x Hx.
    rewrite forallb_forall in Im. specialize (Im x Hx).
    destruct x; try discriminate. cbn [Pandas.isin_scalar] in *.
    apply H. now apply PyDictFacts.contains_In.
  - unfold filter_metrics, Pandera.check_input. now rewrite Hv.
Qed.

Lemma filter_depends_on_known_names_witness :
  filter_metrics (time_series 1 2) ["TEMPERATURE"; "HUMIDITY"]
  = filter_metrics (time_series 1 2) ["temperature"; "TEMPERATURE"].
Proof.
  apply (filter_depends_on_known_names (time_series 1 2)).
  simpl. intros name [<-|[<-|[<-|[]]]]; reflexivity.
Defined.

(** X17. A frame that passes the schema and comes with a column of its own
    called like the helper column loses that column: the result has the
    other columns of the input, in order. *)
Theorem filter_drops_column_named_like_helper :
  forall (data : Pandas.DataFrame) (metrics : list string),
    Pandera.validate Timeseries data = Ok data ->
    NoDup (Pandas.columns data) ->
    In "is_in_metrics" (Pandas.columns data) ->
    exists out before after,
      filter_metrics data metrics = Ok out
      /\ Pandas.columns data = (before ++ "is_in_metrics" :: after)%list
      /\ Pandas.columns out = (before ++ after)%list
      /\ ~ In "is_in_metrics" (Pandas.columns out).
Proof.
  intros data metrics Hv Hnd Hin.
  destruct (FilterFacts.validate_cases data) as [[_ Hc]|[column [Hv' _]]]; [|congruence].
  destruct (FrameFacts.filter_metrics_result data metrics Hc) as [sm [_ [_ E]]].
  destruct (in_split _ _ Hin) as [before [after Hsplit]].
  assert (Hcols : Pandas.columns
                    (Pandas.select_rows (map (Pandas.isin_scalar metrics) (Pandas.values sm))
                       (PyDict.remove data "is_in_metrics"))
                  = (before ++ after)%list).
  { rewrite PandasFacts.columns_select_rows. unfold Pandas.columns in *.
    rewrite FrameFacts.keys_remove by exact Hnd. rewrite Hsplit in *.
    pose proof (NoDup_remove_2 _ _ _ Hnd) as Hno.
    rewrite filter_app. cbn [filter]. rewrite String.eqb_refl. cbn [negb].
    rewrite <- filter_app. apply forallb_filter_id. apply forallb_forall.
    intros x Hx. destruct (String.eqb_spec "is_in_metrics" x) as [<-|_];
      [contradiction | reflexivity]. }
  eexists _, before, after. split; [exact E|]. split; [exact Hsplit|].
  split; [exact Hcols|]. rewrite Hcols.
  rewrite Hsplit in Hnd. now apply NoDup_remove_2 in Hnd.
Qed.

Lemma filter_drops_column_named_like_helper_witness :
  exists out,
    filter_metrics
      [ ("metrics", Pandas.ObjectSeries [Pandas.SStr "RAIN_FALL"]);
        ("is_in_metrics", Pandas.ObjectSeries [Pandas.SStr "kept by the caller"]);
        ("timestamp", Pandas.Datetime64Series [Some 1%Z]);
        ("value", Pandas.Float64Series [one]) ]
      ["RAIN_FALL"] = Ok out
    /\ Pandas.columns out = ["metrics"; "timestamp"; "value"].
Proof.
  destruct (filter_drops_column_named_like_helper
              [ ("metrics", Pandas.ObjectSeries [Pandas.SStr "RAIN_FALL"]);
                ("is_in_metrics", Pandas.ObjectSeries [Pandas.SStr "kept by the caller"]);
                ("timestamp", Pandas.Datetime64Series [Some 1%Z]);
                ("value", Pandas.Float64Series [one]) ]
              ["RAIN_FALL"])
    as [out [before [after [E _]]]].
  - reflexivity.
  - repeat constructor; simpl; intros H; repeat destruct H as [H|H]; discriminate || exact H.
  - simpl. tauto.
  - exists out. split; [exact E|].
    vm_compute in E. injection E as <-. reflexivity.
Defined.

(** X18. The enumeration of the main registry is created and its members
    are the (name, name) pairs of the registry's names.  The handler of
    "/all", given such members, raises nothing and answers with the rows of
    the sample frame whose metric is among the members' names, in the order of
    the frame; given a name the main registry does not hold after members it
    does hold, it raises [KeyError] with the upper-cased name before any
    filtering. *)
Theorem get_from_all_answers_members :
  forall (t1 t2 : Z) (metrics : list (string * string)),
    ((forall member, In member metrics ->
        In member (MetricsRegistry.enum_names MAIN_METRICS_REGISTRY)) ->
     get_from_all t1 t2 metrics
     = Ok (filter (Pandas.row_isin "metrics" (map member_name metrics))
                  (Pandas.rows (time_series t1 t2))))
    /\ (forall before stranger after,
          metrics = (before ++ stranger :: after)%list ->
          (forall member, In member before ->
             In member (MetricsRegistry.enum_names MAIN_METRICS_REGISTRY)) ->
          ~ In (PyStr.upper (member_name stranger))
               (MetricsRegistry.list_all_metrics_names MAIN_METRICS_REGISTRY) ->
          get_from_all t1 t2 metrics
          = Raise (KeyError (PyStr.upper (member_name stranger))))
    /\ MetricsRegistry.get_enum_from_metrics MAIN_METRICS_REGISTRY
       = Ok (Enum.mk "Metrics" (MetricsRegistry.enum_names MAIN_METRICS_REGISTRY)).
Proof.
  intros t1 t2 metrics.
  assert (Hc : Forall Metrics.constructed [TEMPERATURE; RAIN_FALL; WIND_SPEED_2M])
    by (repeat constructor; unfold Metrics.constructed, TEMPERATURE, RAIN_FALL,
          WIND_SPEED_2M; eauto).
  split.
  - intros Hmem. unfold get_from_all.
    destruct (HandlerFacts.traverse_resolves
                (fun member => MetricsRegistry.get_metrics_by_full_name
                                 MAIN_METRICS_REGISTRY (member_name member))
                (fun _ _ => True) metrics) as [found [E _]].
    + intros member Hin.
      destruct (HandlerFacts.member_resolves _ "" member Hc (Hmem member Hin))
        as [m [E1 _]].
      now exists m.
    + rewrite E. cbn [bind].
      assert (Hconf : conforms (time_series t1 t2)).
      { eexists _, _, _. repeat split; reflexivity. }
      destruct (FrameFacts.filter_metrics_result (time_series t1 t2)
                  (map member_name metrics) Hconf) as [sm [Em [_ Ef]]].
      injection Em as <-. rewrite Ef. cbn [bind]. f_equal.
      generalize (map member_name metrics) as names. intros names.
      unfold Pandas.rows, Pandas.row_isin. simpl.
      destruct (PyStr.contains names "TEMPERATURE"),
               (PyStr.contains names "RAIN_FALL"); reflexivity.
  - split; [|reflexivity].
    intros before stranger after -> Hmem Hno. unfold get_from_all.
    rewrite (HandlerFacts.traverse_raises
               (fun member => MetricsRegistry.get_metrics_by_full_name
                                MAIN_METRICS_REGISTRY (member_name member))
               before after stranger (KeyError (PyStr.upper (member_name stranger)))).
    + reflexivity.
    + intros member Hin.
      destruct (HandlerFacts.member_resolves _ "" member Hc (Hmem member Hin))
        as [m [E1 _]].
      now exists m.
    + unfold MetricsRegistry.get_metrics_by_full_name.
      unfold MetricsRegistry.list_all_metrics_names in Hno.
      apply PyDictFacts.get_None in Hno. now rewrite Hno.
Qed.

Lemma get_from_all_answers_members_witness :
  get_from_all 1 2 [("RAIN_FALL", "RAIN_FALL")]
  = Ok [ [ ("metrics", Pandas.SStr "RAIN_FALL");
           ("timestamp", Pandas.SDatetime 2);
           ("value", Pandas.SFloat one) ] ].
Proof.
  apply (proj1 (get_from_all_answers_members 1 2 [("RAIN_FALL", "RAIN_FALL")])).
  simpl. intros member [<-|[]]. tauto.
Defined.

Module CollisionFacts.
Import PyStr PyStrFacts.

Lemma split_from_space (s t word : string) (c : ascii) :
  isspace c = true ->
  split_from word (s ++ String c t)
  = (split_from word s ++ split_from "" t)%list.
Proof.
  intros Hc. revert word; induction s as [|x s IH]; intros word; simpl.
  - rewrite Hc. now destruct (is_empty word).
  - destruct (isspace x).
    + destruct (is_empty word); simpl; now rewrite IH.
    + apply IH.
Qed.

Lemma join_snoc (sep w : string) (ws : list string) :
  ws <> [] -> join sep (ws ++ [w]) = join sep ws ++ sep ++ w.
Proof.
  induction ws as [|w0 ws IH]; intros Hne; [now contradiction Hne|].
  destruct ws as [|w1 ws]; [reflexivity|].
  change (join sep ((w0 :: w1 :: ws) ++ [w]))
    with (w0 ++ sep ++ join sep ((w1 :: ws) ++ [w])).
  rewrite IH by discriminate.
  change (join sep (w0 :: w1 :: ws)) with (w0 ++ sep ++ join sep (w1 :: ws)).
  now rewrite !append_assoc.
Qed.

(** A name that ends in a blank and an aggregation is stored as the name
    before the blank, an underscore and the aggregation. *)
Lemma validator_with_suffix (name : string) (a : Aggregation) :
  Metrics.upper name <> "" ->
  Metrics.upper (name ++ " " ++ Aggregation_value a)
  = Metrics.upper name ++ "_" ++ Aggregation_value a.
Proof.
  intros Hne. unfold Metrics.upper in *. unfold split in *.
  rewrite upper_append. change (upper (" " ++ Aggregation_value a))
    with (String " " (upper (Aggregation_value a))).
  rewrite MetricsFacts.Aggregation_value_upper.
  rewrite split_from_space by reflexivity.
  assert (Hv : split_from "" (Aggregation_value a) = [Aggregation_value a])
    by (destruct a; reflexivity).
  rewrite Hv. apply join_snoc. intros E. apply Hne. now rewrite E.
Qed.

End CollisionFacts.

(** X19. A metric without aggregation whose name ends in a blank and the
    value of an aggregation has the full name of the metric with the name
    before the blank and that aggregation.  A registry given the first and
    then the second lists one name and holds the second metric only. *)
Theorem plain_name_collides_with_aggregation :
  forall (name unit1 unit2 : string) (cumulative1 cumulative2 : bool)
         (a : Aggregation) (prefix : string),
    Metrics.upper name <> "" ->
    let plain := Metrics.init (name ++ " " ++ Aggregation_value a) unit1 cumulative1 None in
    let aggregated := Metrics.init name unit2 cumulative2 (Some a) in
    let self := MetricsRegistry.mk (MetricsRegistry.by_full_name [plain; aggregated]) prefix in
    Metrics.full_name plain = Metrics.full_name aggregated
    /\ MetricsRegistry.list_all_metrics_names self = [Metrics.full_name aggregated]
    /\ MetricsRegistry.get_metrics_by_full_name self (Metrics.full_name plain)
       = Ok aggregated.
Proof.
  intros name unit1 unit2 cumulative1 cumulative2 a prefix Hne plain aggregated self.
  assert (E : Metrics.full_name plain = Metrics.full_name aggregated).
  { unfold plain, aggregated, Metrics.full_name, Metrics.init. simpl.
    now apply CollisionFacts.validator_with_suffix. }
  assert (Hup : PyStr.upper (Metrics.full_name aggregated) = Metrics.full_name aggregated).
  { apply MetricsFacts.full_name_upper. unfold aggregated, Metrics.constructed. eauto. }
  refine (conj E (conj _ _)).
  - unfold self, MetricsRegistry.list_all_metrics_names, MetricsRegistry.by_full_name.
    cbn [MetricsRegistry._metrics fold_left MetricsRegistry.insert PyDict.set PyDict.empty].
    rewrite E, String.eqb_refl. reflexivity.
  - unfold self, MetricsRegistry.get_metrics_by_full_name, MetricsRegistry.by_full_name.
    cbn [MetricsRegistry._metrics fold_left MetricsRegistry.insert].
    rewrite E, Hup. unfold MetricsRegistry.insert at 1.
    now rewrite PyDictFacts.get_set_same.
Qed.

Lemma plain_name_collides_with_aggregation_witness :
  MetricsRegistry.list_all_metrics_names
    (MetricsRegistry.mk
       (MetricsRegistry.by_full_name
          [ Metrics.init "temperature MIN" "K" true None;
            Metrics.init "temperature" "C" false (Some MIN) ]) "")
  = ["TEMPERATURE_MIN"].
Proof.
  refine (proj1 (proj2 (plain_name_collides_with_aggregation
                          "temperature" "K" "C" true false MIN "" _))).
  discriminate.
Defined.

(** X20. Filtering a registry built from constructed metrics by the list
    of its own names copies its mapping under the new prefix; filtering by the
    empty list gives an empty registry, which still takes the prefix. *)
Theorem filtering_by_own_names_copies :
  forall (source : list Metrics.t) (source_prefix prefix : string)
         (cls : MetricsRegistry.prefixes),
    Forall Metrics.constructed source ->
    ~ In prefix (MetricsRegistry._get_prefixes cls) ->
    let self := MetricsRegistry.mk (MetricsRegistry.by_full_name source) source_prefix in
    MetricsRegistry.generate_registry_by_filtering self
      (MetricsRegistry.list_all_metrics_names self) prefix cls
    = (Ok (MetricsRegistry.mk (MetricsRegistry._metrics self) prefix),
       MetricsRegistry._add_prefix cls prefix)
    /\ MetricsRegistry.generate_registry_by_filtering self [] prefix cls
       = (Ok (MetricsRegistry.mk [] prefix), MetricsRegistry._add_prefix cls prefix).
Proof.
  intros source source_prefix prefix cls Hc Hfresh self.
  pose proof (FilteringFacts.by_full_name_well_keyed source) as Hd.
  destruct (RegistryFacts.by_full_name_invariant source) as [_ [Hkeyed Hfrom]].
  apply PyDictFacts.contains_false in Hfresh.
  rewrite !FilteringFacts.generate_cases by exact Hd. rewrite Hfresh.
  split; f_equal; f_equal; f_equal.
  - apply forallb_filter_id. apply forallb_forall. intros [k m] Hin.
    unfold requested. simpl. apply PyDictFacts.contains_In.
    assert (Hup : PyStr.upper k = k).
    { rewrite (Hkeyed k m Hin). apply MetricsFacts.full_name_upper.
      rewrite Forall_forall in Hc. apply Hc. now apply (Hfrom k m). }
    rewrite <- Hup. apply in_map.
    unfold MetricsRegistry.list_all_metrics_names, PyDict.keys. simpl.
    change k with (fst (k, m)). now apply in_map.
  - simpl. clear. generalize (MetricsRegistry.by_full_name source) as d.
    induction d as [|item d IH]; [reflexivity | exact IH].
Qed.

Lemma filtering_by_own_names_copies_witness :
  MetricsRegistry.generate_registry_by_filtering MAIN_METRICS_REGISTRY
    ["TEMPERATURE"; "RAIN_FALL"; "WIND_SPEED_AT_2M"] "Copy" [("", "")]
  = (Ok (MetricsRegistry.mk (MetricsRegistry._metrics MAIN_METRICS_REGISTRY) "Copy"),
     [("", ""); ("Copy", "Copy")]).
Proof.
  refine (proj1 (filtering_by_own_names_copies
                   [TEMPERATURE; RAIN_FALL; WIND_SPEED_2M] "" "Copy" [("", "")] _ _)).
  - repeat constructor; unfold Metrics.constructed, TEMPERATURE, RAIN_FALL, WIND_SPEED_2M;
      eauto.
  - simpl. intros [H|[]]. discriminate.
Defined.
